(** * The WeChat client: media and merchant-order operations

    A shallow embedding of [client/client_media.go] and
    [client/client_merchant_order.go].  Every exported method of [*Client]
    in these two files is a one-shot request/response mapping: check the
    arguments, fetch a token, build the URL, encode the request, make one
    HTTP call, decode the answer, and turn the platform's error code into an
    error value.

    The collaborators the two files call but do not define (the token
    provider, the HTTP transport, the JSON codec, [mime], [multipart], the
    file system, the URL builders) are parameters, gathered in the records
    [Env] and [Client].  Effects are explicit: a computation reads the
    history of effects performed so far and returns the effects it performs
    itself. *)

From Stdlib Require Import String Ascii List ZArith Lia Bool.
From Stdlib.Strings Require Import Byte.
From Stdlib Require Import DecimalString.
Import ListNotations.
Open Scope string_scope.
Open Scope list_scope.

(* ================================================================== *)
(** ** Go values *)

Definition bytes : Type := list byte.

(** The double quote, for messages such as [filename == ...]. *)
Definition dquote : string := String "034"%char EmptyString.

(** Modelled from the spec: the error envelope [ApiError {error_code,
    error_message}] of the data model, which the sources name [Error] and
    read through [result.ErrCode]; its declaration is in a file of the
    package that is not part of this development.  The wire names are
    [errcode] and [errmsg]. *)
Record Error : Type := mkError { ErrCode : Z; ErrMsg : string }.

(** Go's [error] interface, by the dynamic type of the value. *)
Inductive error : Type :=
| errorString (msg : string)            (* errors.New, fmt.Errorf *)
| errorAPI (e : Error)                  (* a [*Error] returned as [error] *)
| errorExt (origin : string) (msg : string). (* made by a collaborator *)

Definition errors_New (msg : string) : error := errorString msg.

(** [fmt.Errorf("http.Status: %s", status)] *)
Definition http_Status_error (status : string) : error :=
  errorString ("http.Status: " ++ status)%string.

(** A call that yields a value or an error. *)
Inductive result (A : Type) : Type :=
| Ok (a : A)
| Fail (e : error).
Arguments Ok {A} a.
Arguments Fail {A} e.

(** Go's [int] and [int64], taken as 64-bit. *)
Definition minInt64 : Z := - 2 ^ 63.
Definition maxInt64 : Z := 2 ^ 63 - 1.

(** *** JSON values

    A number literal without fraction and exponent is a [JInt]; any other
    number literal is kept as its text, since decoding it into a Go integer
    fails. *)
#[warnings="-register-all"]
Inductive JSON : Type :=
| JNull
| JBool (b : bool)
| JInt (z : Z)
| JReal (lit : string)
| JString (s : string)
| JArray (vs : list JSON)
| JObject (ms : list (string * JSON)).

Definition members (v : JSON) : list (string * JSON) :=
  match v with JObject ms => ms | _ => [] end.

Definition keys (v : JSON) : list string := map fst (members v).

(** *** Readers and writers *)

(** An [io.Reader]: the slices its successive [Read] calls deliver, then
    [io.EOF] ([None]) or an error. *)
Record Reader : Type := mkReader {
  rd_chunks : list bytes;
  rd_err : option error
}.

(** An [io.Writer]: what it has accepted so far, and the answer [(n, err)]
    of [Write(p)] given what it has accepted so far. *)
Record Writer : Type := mkWriter {
  wr_sunk : bytes;
  wr_Write : bytes -> bytes -> nat * option error
}.

Definition Write (p : bytes) (dst : Writer) : (nat * option error) * Writer :=
  let '(n, err) := wr_Write dst (wr_sunk dst) p in
  ((n, err), mkWriter (wr_sunk dst ++ firstn n p) (wr_Write dst)).

Definition ErrShortWrite : error := errorExt "io" "short write".

(** The loop of [io.copyBuffer] where the [Read] calls of the source
    deliver the slices [chunks] and then end with [er], [None] for
    [io.EOF]: each slice is written as it is read; a write error or a short
    write ends the copy with that error; when the source is through, its
    error, if it is not [io.EOF], is the error of the copy. *)
Fixpoint io_copyBuffer (dst : Writer) (chunks : list bytes)
    (er : option error) : option error * Writer :=
  match chunks with
  | [] => (er, dst)
  | p :: rest =>
      match p with
      | [] => io_copyBuffer dst rest er
      | _ =>
          let '((nw, ew), dst') := Write p dst in
          match ew with
          | Some e => (Some e, dst')
          | None =>
              if Nat.eqb nw (length p) then io_copyBuffer dst' rest er
              else (Some ErrShortWrite, dst')
          end
      end
  end.

(** [io.Copy(dst, src)].  The byte count it also returns is dropped by its
    only caller. *)
Definition io_Copy (dst : Writer) (src : Reader) : option error * Writer :=
  io_copyBuffer dst (rd_chunks src) (rd_err src).

(** A [bytes.Buffer]-like sink that takes everything. *)
Definition bufferWriter (already : bytes) : Writer :=
  mkWriter already (fun _ p => (length p, None)).

(** *** HTTP responses *)

Record Response : Type := mkResponse {
  StatusCode : Z;
  Status : string;
  Header_Get : string -> string;
  Body : Reader       (* the body stream: what it delivers, and how it ends *)
}.

Definition http_StatusOK : Z := 200.

(** The bytes that the body stream delivers before it ends. *)
Definition Body_bytes (resp : Response) : bytes :=
  concat (rd_chunks (Body resp)).

(* ================================================================== *)
(** ** Effects *)

(** What a call does to the outside world, with the outcome where there is
    one. *)
Inductive Event : Type :=
| EvToken (r : result string)
| EvGetBuffer
| EvPutBuffer
| EvPost (url contentType : string) (body : bytes) (r : result Response)
| EvGet (url : string) (r : result Response)
| EvPostJSON (url : string) (request : JSON)
| EvBodyClose
| EvDecode
| EvOpen (path : string) (ok : bool)
| EvCreate (path : string) (ok : bool)
| EvFileClose (path : string) (written : bytes).

Definition History : Type := list Event.

(** A computation sees the history so far and returns its value and the
    events it adds. *)
Definition M (A : Type) : Type := History -> A * list Event.

Definition ret {A} (a : A) : M A := fun _ => (a, []).

Definition bind {A B} (m : M A) (k : A -> M B) : M B :=
  fun h =>
    let (a, e1) := m h in
    let (b, e2) := k a (h ++ e1) in
    (b, e1 ++ e2).

Definition emit (e : Event) : M unit := fun _ => (tt, [e]).

(** Read the history without adding to it. *)
Definition peek {A} (oracle : History -> A) : M A := fun h => (oracle h, []).

(** Ask the outside world: the answer may depend on the history, and is
    recorded. *)
Definition ask {A} (oracle : History -> A) (ev : A -> Event) : M A :=
  fun h => let a := oracle h in (a, [ev a]).

Declare Scope go_scope.
Delimit Scope go_scope with go.
Notation "x <- m ;; k" := (bind m (fun x => k))
  (at level 61, m at next level, right associativity) : go_scope.
Notation "m ;;; k" := (bind m (fun _ => k))
  (at level 61, right associativity) : go_scope.

(** [defer cleanup] before the rest of the function body. *)
Definition defer {A} (cleanup : M unit) (body : M A) : M A :=
  (a <- body ;; cleanup ;;; ret a)%go.

(** [x, err := call; if err != nil { return fail(err) }], then [k x]. *)
Definition orReturn {X T} (fail : error -> T) (m : M (result X))
    (k : X -> M T) : M T :=
  (r <- m ;; match r with
             | Fail err => ret (fail err)
             | Ok x => k x
             end)%go.

Notation "x <-? m 'orelse' f ;; k" := (orReturn f m (fun x => k))
  (at level 61, m at next level, f at next level,
   right associativity) : go_scope.

(** The same for a call without effects. *)
Definition orReturnPure {X T} (fail : error -> T) (r : result X)
    (k : X -> M T) : M T :=
  match r with
  | Fail err => ret (fail err)
  | Ok x => k x
  end.

(** Buffers drawn and returned among some events. *)
Definition isGet (e : Event) : bool :=
  match e with EvGetBuffer => true | _ => false end.
Definition isPut (e : Event) : bool :=
  match e with EvPutBuffer => true | _ => false end.
Definition drawn (evs : list Event) : nat := length (filter isGet evs).
Definition returned (evs : list Event) : nat := length (filter isPut evs).

(** The name of an event, to show a trace at a glance. *)
Definition label (e : Event) : string :=
  match e with
  | EvToken _ => "Token"
  | EvGetBuffer => "getBuffer"
  | EvPutBuffer => "putBuffer"
  | EvPost _ _ _ _ => "POST"
  | EvGet _ _ => "GET"
  | EvPostJSON _ _ => "postJSON"
  | EvBodyClose => "Body.Close"
  | EvDecode => "Decode"
  | EvOpen _ _ => "Open"
  | EvCreate _ _ => "Create"
  | EvFileClose _ _ => "File.Close"
  end.

Definition isNetwork (e : Event) : bool :=
  match e with
  | EvToken _ | EvPost _ _ _ _ | EvGet _ _ | EvPostJSON _ _ => true
  | _ => false
  end.
Definition isDecode (e : Event) : bool :=
  match e with EvDecode => true | _ => false end.

(* ================================================================== *)
(** ** Decoding JSON into Go structs

    What [encoding/json] does when it stores a JSON value into a struct
    with tagged fields: every member of the object is stored into the field
    whose name is the key, or else into the first field whose name equals
    the key under case folding; members that select no field are skipped;
    [null] leaves the destination as it is; a value of the wrong kind is an
    [UnmarshalTypeError]. *)

Definition UnmarshalTypeError : error := errorExt "json" "UnmarshalTypeError".

Definition Setter (R : Type) : Type := JSON -> R -> result R.
Definition Field (R : Type) : Type := (string * Setter R)%type.

Definition setString {R} (put : string -> R -> R) : Setter R :=
  fun v r =>
    match v with
    | JString s => Ok (put s r)
    | JNull => Ok r
    | _ => Fail UnmarshalTypeError
    end.

Definition setInt {R} (put : Z -> R -> R) : Setter R :=
  fun v r =>
    match v with
    | JInt z =>
        if ((minInt64 <=? z) && (z <=? maxInt64))%Z then Ok (put z r)
        else Fail UnmarshalTypeError
    | JNull => Ok r
    | _ => Fail UnmarshalTypeError
    end.

(** A field of struct type [S], decoded by [dec]. *)
Definition setStruct {R S} (dec : JSON -> S -> result S) (get : R -> S)
    (put : S -> R -> R) : Setter R :=
  fun v r =>
    match dec v (get r) with
    | Ok s => Ok (put s r)
    | Fail e => Fail e
    end.

Fixpoint decodeElements {E} (dec : JSON -> E -> result E) (zero : E)
    (vs : list JSON) : result (list E) :=
  match vs with
  | [] => Ok []
  | v :: vs' =>
      match dec v zero with
      | Fail e => Fail e
      | Ok x =>
          match decodeElements dec zero vs' with
          | Fail e => Fail e
          | Ok xs => Ok (x :: xs)
          end
      end
  end.

(** A field of slice type; [None] is the nil slice. *)
Definition setSlice {R E} (dec : JSON -> E -> result E) (zero : E)
    (put : option (list E) -> R -> R) : Setter R :=
  fun v r =>
    match v with
    | JArray vs =>
        match decodeElements dec zero vs with
        | Ok xs => Ok (put (Some xs) r)
        | Fail e => Fail e
        end
    | JNull => Ok (put None r)
    | _ => Fail UnmarshalTypeError
    end.

(** The fields of an embedded struct, promoted to the embedding one. *)
Definition promote {R S} (get : R -> S) (put : S -> R -> R)
    (f : Field S) : Field R :=
  (fst f, setStruct (snd f) get put).

Section Unmarshal.
Variable EqualFold : string -> string -> bool.
Variable R : Type.

(** The loop over the fields: an exact match ends it, the first match
    under folding is kept otherwise. *)
Fixpoint findField (fields : list (Field R)) (key : string)
    (folded : option (Field R)) : option (Field R) :=
  match fields with
  | [] => folded
  | f :: rest =>
      if (fst f =? key)%string then Some f
      else
        findField rest key
          (match folded with
           | Some g => Some g
           | None => if EqualFold (fst f) key then Some f else None
           end)
  end.

Definition decodeMember (fields : list (Field R)) (acc : result R)
    (m : string * JSON) : result R :=
  match acc with
  | Fail e => Fail e
  | Ok r =>
      match findField fields (fst m) None with
      | Some f => snd f (snd m) r
      | None => Ok r
      end
  end.

Definition unmarshalStruct (fields : list (Field R)) : JSON -> R -> result R :=
  fun v r =>
    match v with
    | JObject ms => fold_left (decodeMember fields) ms (Ok r)
    | JNull => Ok r
    | _ => Fail UnmarshalTypeError
    end.
End Unmarshal.

Arguments findField EqualFold {R} fields key folded.
Arguments decodeMember EqualFold {R} fields acc m.
Arguments unmarshalStruct EqualFold {R} fields _ _.

(* ================================================================== *)
(** ** The types of the packages [media] and [client] *)

Module media.

(** Modelled from the spec: the enumeration [MediaType] = image, voice,
    video, thumb; the constants are declared in package [media], which is
    not part of this development. *)
Definition MEDIA_TYPE_IMAGE : string := "image".
Definition MEDIA_TYPE_VOICE : string := "voice".
Definition MEDIA_TYPE_VIDEO : string := "video".
Definition MEDIA_TYPE_THUMB : string := "thumb".

(** Modelled from the spec: [UploadResponse {media_type, media_id,
    created_at}] with the wire names [type], [media_id] and [created_at];
    the struct that [MediaUpload] declares for thumbnails has the same
    three fields. *)
Record UploadResponse : Type := mkUploadResponse {
  MediaType : string;
  MediaId : string;
  CreatedAt : Z
}.

Definition zero : UploadResponse := mkUploadResponse "" "" 0.

Definition fields : list (Field UploadResponse) :=
  [ ("type", setString (fun s r =>
       mkUploadResponse s (MediaId r) (CreatedAt r)));
    ("media_id", setString (fun s r =>
       mkUploadResponse (MediaType r) s (CreatedAt r)));
    ("created_at", setInt (fun z r =>
       mkUploadResponse (MediaType r) (MediaId r) z)) ].

End media.

Definition Error_zero : Error := mkError 0 "".

Definition Error_fields : list (Field Error) :=
  [ ("errcode", setInt (fun z e => mkError z (ErrMsg e)));
    ("errmsg", setString (fun s e => mkError (ErrCode e) s)) ].

(** The struct that [MediaUpload] decodes a thumbnail answer into:
    [MediaType `type`], [MediaId `thumb_media_id`], [CreatedAt `created_at`]
    and the embedded [Error]. *)
Record thumbResult : Type := mkThumbResult {
  thumb_MediaType : string;
  thumb_MediaId : string;
  thumb_CreatedAt : Z;
  thumb_Error : Error
}.

Definition thumbResult_zero : thumbResult := mkThumbResult "" "" 0 Error_zero.

Definition thumbResult_fields : list (Field thumbResult) :=
  [ ("type", setString (fun s r =>
       mkThumbResult s (thumb_MediaId r) (thumb_CreatedAt r) (thumb_Error r)));
    ("thumb_media_id", setString (fun s r =>
       mkThumbResult (thumb_MediaType r) s (thumb_CreatedAt r) (thumb_Error r)));
    ("created_at", setInt (fun z r =>
       mkThumbResult (thumb_MediaType r) (thumb_MediaId r) z (thumb_Error r))) ]
  ++ map (promote thumb_Error (fun e r =>
       mkThumbResult (thumb_MediaType r) (thumb_MediaId r) (thumb_CreatedAt r) e))
     Error_fields.

(** [struct { media.UploadResponse; Error }] *)
Record uploadResult : Type := mkUploadResult {
  up_UploadResponse : media.UploadResponse;
  up_Error : Error
}.

Definition uploadResult_zero : uploadResult :=
  mkUploadResult media.zero Error_zero.

Definition uploadResult_fields : list (Field uploadResult) :=
  map (promote up_UploadResponse (fun u r => mkUploadResult u (up_Error r)))
    media.fields
  ++ map (promote up_Error (fun e r => mkUploadResult (up_UploadResponse r) e))
    Error_fields.

(** [struct { Error; Order order.Order `json:"order"` }] *)
Record orderResult (Order : Type) : Type := mkOrderResult {
  or_Error : Error;
  or_Order : Order
}.

Arguments mkOrderResult {Order} _ _.
Arguments or_Error {Order} _.
Arguments or_Order {Order} _.

Definition orderResult_fields {Order} (dec : JSON -> Order -> result Order)
  : list (Field (orderResult Order)) :=
  map (promote or_Error (fun e r => mkOrderResult e (or_Order r)))
    Error_fields
  ++ [ ("order", setStruct dec or_Order
                   (fun o r => mkOrderResult (or_Error r) o)) ].

(** [struct { Error; OrderList []order.Order `json:"order_list"` }] *)
Record orderListResult (Order : Type) : Type := mkOrderListResult {
  ol_Error : Error;
  ol_OrderList : option (list Order)
}.

Arguments mkOrderListResult {Order} _ _.
Arguments ol_Error {Order} _.
Arguments ol_OrderList {Order} _.

Definition orderListResult_fields {Order} (dec : JSON -> Order -> result Order)
    (zero : Order) : list (Field (orderListResult Order)) :=
  map (promote ol_Error (fun e r => mkOrderListResult e (ol_OrderList r)))
    Error_fields
  ++ [ ("order_list", setSlice dec zero
                        (fun l r => mkOrderListResult (ol_Error r) l)) ].

(* ================================================================== *)
(** ** The collaborators *)

(** What the two files take from the Go standard library and from the rest
    of the repository. *)
Record Env : Type := mkEnv {
  (* encoding/json: what a Decoder reads from a stream (one JSON value, or
     the error of the syntax or of the stream), the writer, and the folding
     of keys *)
  json_parse : Reader -> result JSON;
  json_Marshal : JSON -> bytes;
  json_EqualFold : string -> string -> bool;
  (* mime.ParseMediaType, first result *)
  mime_ParseMediaType : string -> string;
  (* mime/multipart: the boundary that NewWriter draws, and what
     CreateFormFile and Close leave in the underlying buffer *)
  multipart_boundary : History -> string;
  multipart_CreateFormFile :
    string -> string -> string -> bytes -> result bytes;
  multipart_FormDataContentType : string -> string;
  multipart_Close : string -> bytes -> result bytes;
  (* os and path/filepath *)
  os_Open : string -> History -> result Reader;
  os_Create : string -> History -> result Writer;
  filepath_Base : string -> string;
  (* the URL builders of package client *)
  mediaUploadURL : string -> string -> string;
  mediaDownloadURL : string -> string -> string;
  mediaUploadNewsURL : string -> string;
  mediaUploadVideoURL : string -> string;
  merchantOrderGetByIdURL : string -> string;
  merchantOrderGetByFilterURL : string -> string;
  merchantOrderSetDeliveryURL : string -> string;
  merchantOrderCloseURL : string -> string;
  (* media.News, media.Video and order.Order with their JSON forms *)
  News : Type;
  News_json : News -> JSON;
  Video : Type;
  Video_json : Video -> JSON;
  Order : Type;
  Order_zero : Order;
  Order_unmarshal : JSON -> Order -> result Order
}.

(** The receiver [c *Client]: its token provider, its [httpClient] and its
    [postJSON] helper, which posts a request value to a URL and decodes the
    answer into a destination. *)
Record Client : Type := mkClient {
  cl_Token : History -> result string;
  cl_Post : string -> string -> bytes -> History -> result Response;
  cl_Get : string -> History -> result Response;
  cl_postJSON : forall R : Type,
      string -> JSON -> (JSON -> R -> result R) -> R -> M (option error * R)
}.

Arguments cl_postJSON c {R} url request dec response : rename.

Definition isOk {A} (r : result A) : bool :=
  match r with Ok _ => true | Fail _ => false end.

Section Operations.
Context (env : Env) (c : Client).

Local Open Scope go_scope.

Definition Token : M (result string) := ask (cl_Token c) EvToken.

Definition httpClient_Post (url contentType : string) (body : bytes)
  : M (result Response) :=
  ask (cl_Post c url contentType body) (EvPost url contentType body).

Definition httpClient_Get (url : string) : M (result Response) :=
  ask (cl_Get c url) (EvGet url).

(** [c.postJSON(url, request, &response)]; the call is recorded with the
    request value as [encoding/json] serialises it. *)
Definition postJSON {R} (url : string) (request : JSON)
    (dec : JSON -> R -> result R) (response : R) : M (option error * R) :=
  emit (EvPostJSON url request) ;;;
  cl_postJSON c url request dec response.

(** Modelled from the spec: the buffer pool, "checkout/return of a reusable
    byte buffer for multipart encoding"; [getBufferFromPool] and
    [putBufferToPool] are methods of [Client] declared outside the two
    files.  A buffer is taken to come out empty. *)
Definition getBufferFromPool : M bytes := emit EvGetBuffer ;;; ret [].
Definition putBufferToPool : M unit := emit EvPutBuffer.

Definition Body_Close : M unit := emit EvBodyClose.

(** [json.NewDecoder(resp.Body).Decode(&result)] *)
Definition Decode {R} (resp : Response) (dec : JSON -> R -> result R)
    (dst : R) : M (result R) :=
  emit EvDecode ;;;
  ret (match json_parse env (Body resp) with
       | Fail e => Fail e
       | Ok v => dec v dst
       end).

Definition unmarshal {R} (fields : list (Field R)) : JSON -> R -> result R :=
  unmarshalStruct (json_EqualFold env) fields.

(** [io.Copy(fileWriter, mediaReader)]: what the reader delivers goes into
    the part, and so to the end of the buffer. *)
Definition copyToPart (buf : bytes) (rd : Reader) : option error * bytes :=
  (rd_err rd, buf ++ concat (rd_chunks rd)).

(* ------------------------------------------------------------------ *)
(** *** client_media.go *)

Definition UploadOut : Type :=
  (option media.UploadResponse * option error)%type.

Definition failUpload (err : error) : UploadOut := (None, Some err).

(** The first [switch] of [MediaUpload]. *)
Definition isMediaType (mediaType : string) : bool :=
  ((mediaType =? media.MEDIA_TYPE_IMAGE)
   || (mediaType =? media.MEDIA_TYPE_VOICE)
   || (mediaType =? media.MEDIA_TYPE_VIDEO)
   || (mediaType =? media.MEDIA_TYPE_THUMB))%string.

Definition errBadMediaType : error := errors_New "错误的 mediaType".
Definition errEmptyFilename : error :=
  errors_New ("filename == " ++ dquote ++ dquote)%string.
Definition errNilReader : error := errors_New "mediaReader == nil".
Definition errEmptyMediaId : error :=
  errors_New ("mediaId == " ++ dquote ++ dquote)%string.
Definition errNilWriter : error := errors_New "writer == nil".
Definition errNilNews : error := errors_New "news == nil".
Definition errNilVideo : error := errors_New "video == nil".

(** The second [switch] of [MediaUpload], after the HTTP status check. *)
Definition decodeUpload (mediaType : string) (resp : Response) : M UploadOut :=
  if (mediaType =? media.MEDIA_TYPE_THUMB)%string then
    result <-? Decode resp (unmarshal thumbResult_fields) thumbResult_zero
      orelse failUpload ;;
    if negb (ErrCode (thumb_Error result) =? 0)%Z then
      ret (None, Some (errorAPI (thumb_Error result)))
    else
      ret (Some (media.mkUploadResponse (thumb_MediaType result)
                   (thumb_MediaId result) (thumb_CreatedAt result)), None)
  else
    result <-? Decode resp (unmarshal uploadResult_fields) uploadResult_zero
      orelse failUpload ;;
    if negb (ErrCode (up_Error result) =? 0)%Z then
      ret (None, Some (errorAPI (up_Error result)))
    else
      ret (Some (up_UploadResponse result), None).

Definition MediaUpload (mediaType filename : string)
    (mediaReader : option Reader) : M UploadOut :=
  if negb (isMediaType mediaType) then ret (None, Some errBadMediaType)
  else if (filename =? "")%string then ret (None, Some errEmptyFilename)
  else
    match mediaReader with
    | None => ret (None, Some errNilReader)
    | Some rd =>
        token <-? Token orelse failUpload ;;
        bodyBuf <- getBufferFromPool ;;
        defer putBufferToPool
          (boundary <- peek (multipart_boundary env) ;;
           orReturnPure failUpload
             (multipart_CreateFormFile env boundary "file" filename bodyBuf)
             (fun buf1 =>
           match copyToPart buf1 rd with
           | (Some err, _) => ret (None, Some err)
           | (None, buf2) =>
           let bodyContentType := multipart_FormDataContentType env boundary in
           orReturnPure failUpload (multipart_Close env boundary buf2)
             (fun buf3 =>
           let _url := mediaUploadURL env token mediaType in
           resp <-? httpClient_Post _url bodyContentType buf3
             orelse failUpload ;;
           defer Body_Close
             (if negb (StatusCode resp =? http_StatusOK)%Z then
                ret (None, Some (http_Status_error (Status resp)))
              else decodeUpload mediaType resp))
           end))
    end.

Definition MediaUploadFromFile (mediaType filePath : string) : M UploadOut :=
  file <-? ask (os_Open env filePath) (fun r => EvOpen filePath (isOk r))
    orelse failUpload ;;
  defer (emit (EvFileClose filePath []))
    (MediaUpload mediaType (filepath_Base env filePath) (Some file)).

(** The error, and the writer as the call leaves it. *)
Definition DownloadOut : Type := (option error * option Writer)%type.

Definition MediaDownload (mediaId : string) (writer : option Writer)
  : M DownloadOut :=
  if (mediaId =? "")%string then ret (Some errEmptyMediaId, writer)
  else
    match writer with
    | None => ret (Some errNilWriter, None)
    | Some dst =>
        let fail := fun err : error => (Some err, Some dst) in
        token <-? Token orelse fail ;;
        let _url := mediaDownloadURL env token mediaId in
        resp <-? httpClient_Get _url orelse fail ;;
        defer Body_Close
          (if negb (StatusCode resp =? http_StatusOK)%Z then
             ret (Some (http_Status_error (Status resp)), Some dst)
           else
             let contentType :=
               mime_ParseMediaType env (Header_Get resp "Content-Type") in
             if (negb (contentType =? "text/plain")
                 && negb (contentType =? "application/json"))%string then
               let (err, dst') := io_Copy dst (Body resp) in
               ret (err, Some dst')
             else
               result <-? Decode resp (unmarshal Error_fields) Error_zero
                 orelse fail ;;
               ret (Some (errorAPI result), Some dst))
    end.

(** [defer file.Close()] is written out, since what the file holds when it
    is closed is what the call left in it. *)
Definition MediaDownloadToFile (mediaId filePath : string) : M (option error) :=
  file <-? ask (os_Create env filePath) (fun r => EvCreate filePath (isOk r))
    orelse Some ;;
  out <- MediaDownload mediaId (Some file) ;;
  emit (EvFileClose filePath
          (match snd out with Some f => wr_sunk f | None => [] end)) ;;;
  ret (fst out).

Definition MediaUploadNews (news : option (News env)) : M UploadOut :=
  match news with
  | None => ret (None, Some errNilNews)
  | Some n =>
      token <-? Token orelse failUpload ;;
      let _url := mediaUploadNewsURL env token in
      reply <- postJSON _url (News_json env n)
                 (unmarshal uploadResult_fields) uploadResult_zero ;;
      match reply with
      | (Some err, _) => ret (None, Some err)
      | (None, result) =>
          if negb (ErrCode (up_Error result) =? 0)%Z then
            ret (None, Some (errorAPI (up_Error result)))
          else ret (Some (up_UploadResponse result), None)
      end
  end.

Definition MediaUploadVideo (video : option (Video env)) : M UploadOut :=
  match video with
  | None => ret (None, Some errNilVideo)
  | Some v =>
      token <-? Token orelse failUpload ;;
      let _url := mediaUploadVideoURL env token in
      reply <- postJSON _url (Video_json env v)
                 (unmarshal uploadResult_fields) uploadResult_zero ;;
      match reply with
      | (Some err, _) => ret (None, Some err)
      | (None, result) =>
          if negb (ErrCode (up_Error result) =? 0)%Z then
            ret (None, Some (errorAPI (up_Error result)))
          else ret (Some (up_UploadResponse result), None)
      end
  end.

(* ------------------------------------------------------------------ *)
(** *** client_merchant_order.go *)

(** A field tagged [omitempty] is left out when it is zero. *)
Definition omitempty (name : string) (z : Z) : list (string * JSON) :=
  if (z =? 0)%Z then [] else [(name, JInt z)].

Definition orderIdRequest (orderId : string) : JSON :=
  JObject [("order_id", JString orderId)].

Definition filterRequest (status beginTime endTime : Z) : JSON :=
  JObject (omitempty "status" status ++ omitempty "begintime" beginTime
           ++ omitempty "endtime" endTime).

Definition deliveryRequest (orderId deliveryCompany deliveryTrackNo : string)
  : JSON :=
  JObject [("order_id", JString orderId);
           ("delivery_company", JString deliveryCompany);
           ("delivery_track_no", JString deliveryTrackNo)].

Definition MerchantOrderGetById (orderId : string)
  : M (option (Order env) * option error) :=
  token <-? Token orelse (fun err => (None, Some err)) ;;
  let _url := merchantOrderGetByIdURL env token in
  let request := orderIdRequest orderId in
  reply <- postJSON _url request
             (unmarshal (orderResult_fields (Order_unmarshal env)))
             (mkOrderResult Error_zero (Order_zero env)) ;;
  match reply with
  | (Some err, _) => ret (None, Some err)
  | (None, result) =>
      if negb (ErrCode (or_Error result) =? 0)%Z then
        ret (None, Some (errorAPI (or_Error result)))
      else ret (Some (or_Order result), None)
  end.

Definition MerchantOrderGetByFilter (status beginTime endTime : Z)
  : M (option (list (Order env)) * option error) :=
  token <-? Token orelse (fun err => (None, Some err)) ;;
  let _url := merchantOrderGetByFilterURL env token in
  let request := filterRequest status beginTime endTime in
  reply <- postJSON _url request
             (unmarshal (orderListResult_fields (Order_unmarshal env)
                           (Order_zero env)))
             (mkOrderListResult Error_zero (Some [])) ;;
  match reply with
  | (Some err, _) => ret (None, Some err)
  | (None, result) =>
      if negb (ErrCode (ol_Error result) =? 0)%Z then
        ret (None, Some (errorAPI (ol_Error result)))
      else ret (ol_OrderList result, None)
  end.

Definition MerchantOrderSetDelivery
    (orderId deliveryCompany deliveryTrackNo : string) : M (option error) :=
  token <-? Token orelse Some ;;
  let _url := merchantOrderSetDeliveryURL env token in
  let request := deliveryRequest orderId deliveryCompany deliveryTrackNo in
  reply <- postJSON _url request (unmarshal Error_fields) Error_zero ;;
  match reply with
  | (Some err, _) => ret (Some err)
  | (None, result) =>
      if negb (ErrCode result =? 0)%Z then ret (Some (errorAPI result))
      else ret None
  end.

Definition MerchantOrderClose (orderId : string) : M (option error) :=
  token <-? Token orelse Some ;;
  let _url := merchantOrderCloseURL env token in
  let request := orderIdRequest orderId in
  reply <- postJSON _url request (unmarshal Error_fields) Error_zero ;;
  match reply with
  | (Some err, _) => ret (Some err)
  | (None, result) =>
      if negb (ErrCode result =? 0)%Z then ret (Some (errorAPI result))
      else ret None
  end.

(* ------------------------------------------------------------------ *)
(** *** The [postJSON] helper *)

(** Modelled from the spec: [postJSON], the generic "POST JSON, decode
    JSON" helper, a method of [Client] declared outside the two files.  It
    serialises the request value as the JSON body of one POST, fails with
    a status-derived error on any status but 200 before it decodes
    anything, decodes the answer into the destination, hands transport and
    decode errors on unchanged, and releases the response body on every
    path.  The wording of the status error is that of the sibling code in
    [MediaUpload]; the content type sent is not fixed by the spec, and
    [postJSON_contentType] stands for it. *)
Definition postJSON_contentType : string := "application/json; charset=utf-8".

Definition postJSON_spec {R} (url : string) (request : JSON)
    (dec : JSON -> R -> result R) (response : R) : M (option error * R) :=
  resp <-? httpClient_Post url postJSON_contentType (json_Marshal env request)
    orelse (fun err => (Some err, response)) ;;
  defer Body_Close
    (if negb (StatusCode resp =? http_StatusOK)%Z then
       ret (Some (http_Status_error (Status resp)), response)
     else
       decoded <-? Decode resp dec response
         orelse (fun err => (Some err, response)) ;;
       ret (None, decoded)).

End Operations.

(** A client whose [postJSON] is the helper as the spec describes it. *)
Definition conforming (env : Env) (c : Client) : Prop :=
  forall (R : Type) url request (dec : JSON -> R -> result R) response h,
    cl_postJSON c url request dec response h
    = postJSON_spec env c url request dec response h.

Definition specClient (env : Env) (token : History -> result string)
    (post : string -> string -> bytes -> History -> result Response)
    (get : string -> History -> result Response) : Client :=
  let transport := mkClient token post get (fun R _ _ _ r => ret (None, r)) in
  mkClient token post get (fun R => @postJSON_spec env transport R).

(* ================================================================== *)
(** ** A fake environment

    Concrete collaborators, in the manner of a test double: a reader of
    JSON texts without escapes and fractions, a writer of JSON texts, ASCII
    case folding, a transport that answers every request with one fixed
    response.  The theorems below hold for every environment; this one
    runs them. *)

Module Fake.

Definition isSpace (b : byte) : bool :=
  match b with
  | x20 | x09 | x0a | x0d => true
  | _ => false
  end.

Fixpoint skipSpace (s : bytes) : bytes :=
  match s with
  | b :: s' => if isSpace b then skipSpace s' else s
  | [] => []
  end.

Definition digit (b : byte) : option Z :=
  let n := Byte.to_N b in
  if ((48 <=? n) && (n <=? 57))%N then Some (Z.of_N n - 48)%Z else None.

Fixpoint readDigits (acc : Z) (s : bytes) : Z * bytes :=
  match s with
  | b :: s' =>
      match digit b with
      | Some d => readDigits (10 * acc + d)%Z s'
      | None => (acc, s)
      end
  | [] => (acc, [])
  end.

(** The rest of a string literal, up to the closing quote. *)
Fixpoint readString (acc : bytes) (s : bytes) : option (string * bytes) :=
  match s with
  | [] => None
  | b :: s' =>
      if Byte.eqb b x22 then Some (string_of_list_byte (rev acc), s')
      else if Byte.eqb b x5c then None
      else readString (b :: acc) s'
  end.

Definition readNumber (negative : bool) (s : bytes) : option (JSON * bytes) :=
  match s with
  | b :: _ =>
      match digit b with
      | None => None
      | Some _ =>
          let (n, rest) := readDigits 0 s in
          match rest with
          | x2e :: _ | x65 :: _ | x45 :: _ => None
          | _ => Some (JInt (if negative then - n else n)%Z, rest)
          end
      end
  | [] => None
  end.

Fixpoint parseValue (fuel : nat) (s : bytes) {struct fuel}
  : option (JSON * bytes) :=
  match fuel with
  | O => None
  | S n =>
      match skipSpace s with
      | x7b :: r =>
          match skipSpace r with
          | x7d :: r' => Some (JObject [], r')
          | r' => parseMembers n r' []
          end
      | x5b :: r =>
          match skipSpace r with
          | x5d :: r' => Some (JArray [], r')
          | r' => parseElements n r' []
          end
      | x22 :: r =>
          match readString [] r with
          | Some (str, r') => Some (JString str, r')
          | None => None
          end
      | x74 :: x72 :: x75 :: x65 :: r => Some (JBool true, r)
      | x66 :: x61 :: x6c :: x73 :: x65 :: r => Some (JBool false, r)
      | x6e :: x75 :: x6c :: x6c :: r => Some (JNull, r)
      | x2d :: r => readNumber true r
      | r => readNumber false r
      end
  end
with parseMembers (fuel : nat) (s : bytes) (acc : list (string * JSON))
    {struct fuel} : option (JSON * bytes) :=
  match fuel with
  | O => None
  | S n =>
      match skipSpace s with
      | x22 :: r =>
          match readString [] r with
          | None => None
          | Some (key, r1) =>
              match skipSpace r1 with
              | x3a :: r2 =>
                  match parseValue n r2 with
                  | None => None
                  | Some (v, r3) =>
                      match skipSpace r3 with
                      | x2c :: r4 => parseMembers n r4 (acc ++ [(key, v)])
                      | x7d :: r4 => Some (JObject (acc ++ [(key, v)]), r4)
                      | _ => None
                      end
                  end
              | _ => None
              end
          end
      | _ => None
      end
  end
with parseElements (fuel : nat) (s : bytes) (acc : list JSON)
    {struct fuel} : option (JSON * bytes) :=
  match fuel with
  | O => None
  | S n =>
      match parseValue n s with
      | None => None
      | Some (v, r) =>
          match skipSpace r with
          | x2c :: r' => parseElements n r' (acc ++ [v])
          | x5d :: r' => Some (JArray (acc ++ [v]), r')
          | _ => None
          end
      end
  end.

Definition SyntaxError : error := errorExt "json" "SyntaxError".

Definition parse (b : bytes) : result JSON :=
  match parseValue (S (length b)) b with
  | Some (v, _) => Ok v
  | None => Fail SyntaxError
  end.

(** The decoder on a stream: the value at the head of what the stream
    delivers; a stream that breaks off before it has delivered one gives
    its own error. *)
Definition read (r : Reader) : result JSON :=
  match parse (concat (rd_chunks r)), rd_err r with
  | Ok v, _ => Ok v
  | Fail e, None => Fail e
  | Fail _, Some broken => Fail broken
  end.

Definition showInt (z : Z) : string := NilZero.string_of_int (Z.to_int z).

Definition quoted (s : string) : string := (dquote ++ s ++ dquote)%string.

Fixpoint show (v : JSON) : string :=
  match v with
  | JNull => "null"
  | JBool true => "true"
  | JBool false => "false"
  | JInt z => showInt z
  | JReal lit => lit
  | JString s => quoted s
  | JArray vs =>
      ("[" ++ (fix elems (sep : string) (l : list JSON) : string :=
                 match l with
                 | [] => ""
                 | x :: l' => sep ++ show x ++ elems "," l'
                 end) "" vs ++ "]")%string
  | JObject ms =>
      ("{" ++ (fix mems (sep : string) (l : list (string * JSON)) : string :=
                 match l with
                 | [] => ""
                 | m :: l' =>
                     sep ++ quoted (fst m) ++ ":" ++ show (snd m) ++ mems "," l'
                 end) "" ms ++ "}")%string
  end.

Definition Marshal (v : JSON) : bytes := list_byte_of_string (show v).

Definition lower (a : ascii) : ascii :=
  let n := nat_of_ascii a in
  if (65 <=? n)%nat && (n <=? 90)%nat then ascii_of_nat (n + 32) else a.

Fixpoint EqualFold (s t : string) : bool :=
  match s, t with
  | EmptyString, EmptyString => true
  | String a s', String b t' => Ascii.eqb (lower a) (lower b) && EqualFold s' t'
  | _, _ => false
  end.

Fixpoint mapString (f : ascii -> ascii) (s : string) : string :=
  match s with
  | EmptyString => EmptyString
  | String a s' => String (f a) (mapString f s')
  end.

(** The text before the first semicolon or blank, in lower case. *)
Fixpoint mediaType (s : string) : string :=
  match s with
  | EmptyString => EmptyString
  | String a s' =>
      if Ascii.eqb a ";" || Ascii.eqb a " " then EmptyString
      else String (lower a) (mediaType s')
  end.

Definition CRLF : string := String "013" (String "010" EmptyString).

Definition partHeader (boundary fieldname filename : string) : string :=
  ("--" ++ boundary ++ CRLF
   ++ "Content-Disposition: form-data; name=" ++ quoted fieldname
   ++ "; filename=" ++ quoted filename ++ CRLF
   ++ "Content-Type: application/octet-stream" ++ CRLF ++ CRLF)%string.

Definition trailer (boundary : string) : string :=
  (CRLF ++ "--" ++ boundary ++ "--" ++ CRLF)%string.

Definition NotExist : error := errorExt "os" "file does not exist".

(** One file to read, [in.jpg]; every path can be created. *)
Definition Open (path : string) (_ : History) : result Reader :=
  if (path =? "in.jpg")%string
  then Ok (mkReader [list_byte_of_string "JPEG"] None)
  else Fail NotExist.

Definition Create (path : string) (_ : History) : result Writer :=
  Ok (bufferWriter []).

Fixpoint basename (acc s : string) : string :=
  match s with
  | EmptyString => acc
  | String a s' =>
      if Ascii.eqb a "/" then basename EmptyString s'
      else basename (acc ++ String a EmptyString)%string s'
  end.

Definition endpoint (path token : string) : string :=
  ("https://api.weixin.qq.com/" ++ path ++ "?access_token=" ++ token)%string.

Definition decodeOrder (v old : JSON) : result JSON :=
  match v with
  | JObject _ => Ok v
  | JNull => Ok old
  | _ => Fail UnmarshalTypeError
  end.

Definition env : Env := {|
  json_parse := read;
  json_Marshal := Marshal;
  json_EqualFold := EqualFold;
  mime_ParseMediaType := mediaType;
  multipart_boundary := fun _ => "XYZ";
  multipart_CreateFormFile := fun boundary fieldname filename buf =>
    Ok (buf ++ list_byte_of_string (partHeader boundary fieldname filename));
  multipart_FormDataContentType := fun boundary =>
    ("multipart/form-data; boundary=" ++ boundary)%string;
  multipart_Close := fun boundary buf =>
    Ok (buf ++ list_byte_of_string (trailer boundary));
  os_Open := Open;
  os_Create := Create;
  filepath_Base := basename EmptyString;
  mediaUploadURL := fun token mediaType =>
    (endpoint "media/upload" token ++ "&type=" ++ mediaType)%string;
  mediaDownloadURL := fun token mediaId =>
    (endpoint "media/get" token ++ "&media_id=" ++ mediaId)%string;
  mediaUploadNewsURL := endpoint "media/uploadnews";
  mediaUploadVideoURL := endpoint "media/uploadvideo";
  merchantOrderGetByIdURL := endpoint "merchant/order/getbyid";
  merchantOrderGetByFilterURL := endpoint "merchant/order/getbyfilter";
  merchantOrderSetDeliveryURL := endpoint "merchant/order/setdelivery";
  merchantOrderCloseURL := endpoint "merchant/order/close";
  News := JSON;
  News_json := fun n => n;
  Video := JSON;
  Video_json := fun v => v;
  Order := JSON;
  Order_zero := JNull;
  Order_unmarshal := decodeOrder
|}.

(** A JSON text written with apostrophes for the double quotes. *)
Definition text (s : string) : bytes :=
  list_byte_of_string
    (mapString (fun a => if Ascii.eqb a "'" then "034"%char else a) s).

Definition header (contentType : string) (key : string) : string :=
  if (key =? "Content-Type")%string then contentType else "".

Definition response (code : Z) (status contentType : string) (body : bytes)
  : Response :=
  mkResponse code status (header contentType) (mkReader [body] None).

Definition ok200 (contentType : string) (body : bytes) : Response :=
  response 200 "200 OK" contentType body.

(** The client of a transport that hands out the token [TOKEN] and answers
    every request with [resp]. *)
Definition client (resp : Response) : Client :=
  specClient env (fun _ => Ok "TOKEN") (fun _ _ _ _ => Ok resp)
    (fun _ _ => Ok resp).

Definition TokenDown : error := errorExt "token" "unavailable".
Definition NetDown : error := errorExt "net" "connection refused".

(** The same with a token provider that fails. *)
Definition clientNoToken (resp : Response) : Client :=
  specClient env (fun _ => Fail TokenDown) (fun _ _ _ _ => Ok resp)
    (fun _ _ => Ok resp).

(** The same with a transport that fails. *)
Definition clientNoNet : Client :=
  specClient env (fun _ => Ok "TOKEN") (fun _ _ _ _ => Fail NetDown)
    (fun _ _ => Fail NetDown).

(** A writer that refuses every write, such as a closed file. *)
Definition Closed : error := errorExt "os" "file already closed".
Definition closedWriter : Writer := mkWriter [] (fun _ _ => (O, Some Closed)).

End Fake.

(* ================================================================== *)
(** ** Notions the statements use *)

Definition mediaTypes : list string :=
  [media.MEDIA_TYPE_IMAGE; media.MEDIA_TYPE_VOICE; media.MEDIA_TYPE_VIDEO;
   media.MEDIA_TYPE_THUMB].

(** No token fetch and no request among the events. *)
Definition offline (evs : list Event) : Prop :=
  forall e, In e evs -> isNetwork e = false.

(** No decoding of a response body among the events. *)
Definition undecoded (evs : list Event) : Prop :=
  forall e, In e evs -> isDecode e = false.

(** The events hold an HTTP exchange that was answered with [resp]. *)
Definition answered (resp : Response) (evs : list Event) : Prop :=
  (exists url contentType body, In (EvPost url contentType body (Ok resp)) evs)
  \/ (exists url, In (EvGet url (Ok resp)) evs).

(** A writer that takes every slice whole. *)
Definition accepting (dst : Writer) : Prop :=
  forall sunk p, wr_Write dst sunk p = (length p, None).

(** A writer that takes nothing and answers every write with [e]. *)
Definition refusing (e : error) (dst : Writer) : Prop :=
  forall sunk p, wr_Write dst sunk p = (O, Some e).

(** The media type that the answer declares, as [MediaDownload] reads it. *)
Definition declaredType (env : Env) (resp : Response) : string :=
  mime_ParseMediaType env (Header_Get resp "Content-Type").

Definition isErrorDocument (env : Env) (resp : Response) : bool :=
  ((declaredType env resp =? "text/plain")
   || (declaredType env resp =? "application/json"))%string.

(** What [MediaDownload] makes of an answer with status 200. *)
Definition downloaded (env : Env) (dst : Writer) (resp : Response)
  : DownloadOut :=
  if isErrorDocument env resp then
    match json_parse env (Body resp) with
    | Fail err => (Some err, Some dst)
    | Ok v =>
        match unmarshal env Error_fields v Error_zero with
        | Fail err => (Some err, Some dst)
        | Ok e => (Some (errorAPI e), Some dst)
        end
    end
  else (fst (io_Copy dst (Body resp)), Some (snd (io_Copy dst (Body resp)))).

(** An answer with a status other than 200 among the events makes the
    call fail with the error that shows the status, and nothing is
    decoded. *)
Definition statusError (evs : list Event) (err : option error) : Prop :=
  forall resp,
    answered resp evs -> StatusCode resp <> http_StatusOK ->
    err = Some (errorString ("http.Status: " ++ Status resp)%string)
    /\ undecoded evs.

(** The form that [MediaUpload] makes of [filename] and of what the reader
    [rd] delivers, with the boundary drawn in the history [h]: its body and
    its content type. *)
Definition uploadForm (env : Env) (filename : string) (rd : Reader)
    (h : History) (body : bytes) (contentType : string) : Prop :=
  exists header,
    multipart_CreateFormFile env (multipart_boundary env h) "file" filename []
    = Ok header
    /\ rd_err rd = None
    /\ multipart_Close env (multipart_boundary env h)
         (header ++ concat (rd_chunks rd)) = Ok body
    /\ contentType = multipart_FormDataContentType env (multipart_boundary env h).

(** An upload with valid arguments whose POST the transport answers with
    [resp], of a status other than 200. *)
Definition refusedUpload (env : Env) (c : Client) (h : History)
    (mediaType filename : string) (rd : Reader) (token : string)
    (body : bytes) (contentType : string) (resp : Response) : Prop :=
  In mediaType mediaTypes /\ filename <> ""
  /\ cl_Token c h = Ok token
  /\ uploadForm env filename rd (h ++ [EvToken (Ok token); EvGetBuffer])
       body contentType
  /\ cl_Post c (mediaUploadURL env token mediaType) contentType body
       (h ++ [EvToken (Ok token); EvGetBuffer]) = Ok resp
  /\ StatusCode resp <> http_StatusOK.

(** What such an upload does: the token, the buffer, the POST, and the two
    deferred calls. *)
Definition refusedUploadTrace (env : Env) (mediaType token : string)
    (body : bytes) (contentType : string) (resp : Response) : list Event :=
  [EvToken (Ok token); EvGetBuffer;
   EvPost (mediaUploadURL env token mediaType) contentType body (Ok resp);
   EvBodyClose; EvPutBuffer].

(** A download with a media id whose GET the transport answers with
    [resp], of a status other than 200. *)
Definition refusedDownload (env : Env) (c : Client) (h : History)
    (mediaId token : string) (resp : Response) : Prop :=
  mediaId <> ""
  /\ cl_Token c h = Ok token
  /\ cl_Get c (mediaDownloadURL env token mediaId) (h ++ [EvToken (Ok token)])
     = Ok resp
  /\ StatusCode resp <> http_StatusOK.

Definition refusedDownloadTrace (env : Env) (mediaId token : string)
    (resp : Response) : list Event :=
  [EvToken (Ok token); EvGet (mediaDownloadURL env token mediaId) (Ok resp);
   EvBodyClose].

(** A call that goes through [postJSON] with [request] for [url], whose
    POST the transport answers with [resp], of a status other than 200. *)
Definition refusedJSON (env : Env) (c : Client) (h : History)
    (url : string -> string) (request : JSON) (token : string)
    (resp : Response) : Prop :=
  cl_Token c h = Ok token
  /\ cl_Post c (url token) postJSON_contentType (json_Marshal env request)
       ((h ++ [EvToken (Ok token)]) ++ [EvPostJSON (url token) request])
     = Ok resp
  /\ StatusCode resp <> http_StatusOK.

Definition refusedJSONTrace (env : Env) (url : string -> string)
    (request : JSON) (token : string) (resp : Response) : list Event :=
  [EvToken (Ok token); EvPostJSON (url token) request;
   EvPost (url token) postJSON_contentType (json_Marshal env request) (Ok resp);
   EvBodyClose].

(** The name that a key selects among the field names of a struct: the
    loop of [findField] on the names alone. *)
Fixpoint selectName (EqualFold : string -> string -> bool)
    (names : list string) (key : string) (folded : option string)
  : option string :=
  match names with
  | [] => folded
  | n :: rest =>
      if (n =? key)%string then Some n
      else
        selectName EqualFold rest key
          (match folded with
           | Some g => Some g
           | None => if EqualFold n key then Some n else None
           end)
  end.

Definition stringStep (EqualFold : string -> string -> bool)
    (names : list string) (name : string) (acc : string)
    (m : string * JSON) : string :=
  match selectName EqualFold names (fst m) None with
  | Some n =>
      if (n =? name)%string then
        match snd m with JString s => s | _ => acc end
      else acc
  | None => acc
  end.

(** The string that the members of [v] leave in the string field [name] of
    a struct with the field names [names]: the last string among the
    members whose key selects that field, or the empty string. *)
Definition stringMember (EqualFold : string -> string -> bool)
    (names : list string) (name : string) (v : JSON) : string :=
  fold_left (stringStep EqualFold names name) (members v) "".



(** [postJSON], called with [request] for [url] once the token was fetched
    in the history [h], hands back [res] and no error. *)
Definition posted {R} (c : Client) (h : History) (url : string -> string)
    (request : JSON) (dec : JSON -> R -> result R) (init res : R) : Prop :=
  exists token,
    cl_Token c h = Ok token
    /\ fst (cl_postJSON c (url token) request dec init
              ((h ++ [EvToken (Ok token)]) ++ [EvPostJSON (url token) request]))
       = (None, res).

(** The answer to the POST among the events has status 200 and decodes to
    [res]. *)
Definition decoded {R} (env : Env) (evs : list Event)
    (fields : list (Field R)) (init res : R) : Prop :=
  exists url contentType body resp v,
    In (EvPost url contentType body (Ok resp)) evs
    /\ StatusCode resp = http_StatusOK
    /\ json_parse env (Body resp) = Ok v
    /\ unmarshal env fields v init = Ok res.

(** The outcome [out] is governed by the error code of the decoded answer:
    a result comes back only with the code 0, and then no error with it;
    any other code makes the call fail with the envelope and without
    result. *)
Definition gated {R P} (out : option P * option error) (answer : R -> Prop)
    (envelope : R -> Error) (payload : R -> option P) : Prop :=
  (forall r, fst out = Some r ->
     snd out = None
     /\ exists res, answer res /\ ErrCode (envelope res) = 0%Z
                    /\ payload res = Some r)
  /\ (forall res, answer res -> ErrCode (envelope res) <> 0%Z ->
        out = (None, Some (errorAPI (envelope res))))
  /\ (forall res, answer res -> ErrCode (envelope res) = 0%Z ->
        out = (payload res, None)).

(** *** Runs of the fake client *)

Definition jsonAnswer (s : string) : Response :=
  Fake.ok200 "application/json" (Fake.text s).

Definition jpeg : Reader := mkReader [list_byte_of_string "JPEG"] None.

(** [MerchantOrderGetById] with an empty order id, answered with an order. *)
Definition emptyOrderIdRun : (option JSON * option error) * list Event :=
  MerchantOrderGetById Fake.env
    (Fake.client (jsonAnswer "{'errcode':0,'errmsg':'ok','order':{}}")) "" [].

Definition binAnswer : Response :=
  Fake.ok200 "application/octet-stream" (list_byte_of_string "BIN").

(** A download into a writer that refuses every write. *)
Definition closedSinkRun : DownloadOut * list Event :=
  MediaDownload Fake.env (Fake.client binAnswer) "id"
    (Some Fake.closedWriter) [].

(** An answer whose body breaks off after the two bytes [BI]. *)
Definition UnexpectedEOF : error := errorExt "io" "unexpected EOF".

Definition brokenAnswer : Response :=
  mkResponse 200 "200 OK" (Fake.header "application/octet-stream")
    (mkReader [list_byte_of_string "BI"] (Some UnexpectedEOF)).

(** A download of that answer into a buffer. *)
Definition brokenBodyRun : DownloadOut * list Event :=
  MediaDownload Fake.env (Fake.client brokenAnswer) "id"
    (Some (bufferWriter [])) [].

Definition answer500 : Response :=
  Fake.response 500 "500 Internal Server Error" "text/html"
    (list_byte_of_string "oops").

(** The error that shows this status. *)
Definition status500 : error :=
  errorString "http.Status: 500 Internal Server Error".

(** The error document of the spec's example. *)
Definition invalidMediaId : Response :=
  jsonAnswer "{'errcode':40007,'errmsg':'invalid media_id'}".

(** A document in the error format that reports no error. *)
Definition errcodeZero : Response :=
  Fake.ok200 "text/plain" (Fake.text "{'errcode':0,'errmsg':'ok'}").

(** A thumbnail answer and an image answer that carry both identifiers. *)
Definition bothIds (kind : string) : Response :=
  jsonAnswer ("{'type':'" ++ kind ++ "','thumb_media_id':'T1',"
              ++ "'media_id':'M1','created_at':1400000000}")%string.

Definition remoteError : Response :=
  jsonAnswer "{'errcode':40004,'errmsg':'invalid media type'}".

Definition newsStored : Response :=
  jsonAnswer "{'type':'news','media_id':'N1','created_at':1400000000}".

(** *** Notions for the further properties *)

Definition isPost (e : Event) : bool :=
  match e with EvPost _ _ _ _ => true | _ => false end.
Definition isGetRequest (e : Event) : bool :=
  match e with EvGet _ _ => true | _ => false end.
Definition isBodyClose (e : Event) : bool :=
  match e with EvBodyClose => true | _ => false end.

(** A request that the transport answered with a response. *)
Definition isAnswer (e : Event) : bool :=
  match e with
  | EvPost _ _ _ (Ok _) | EvGet _ (Ok _) => true
  | _ => false
  end.

Definition count (f : Event -> bool) (evs : list Event) : nat :=
  length (filter f evs).

(** [json.NewDecoder(resp.Body).Decode(&result)] without its trace. *)
Definition decodeBody {R} (env : Env) (fields : list (Field R)) (init : R)
    (resp : Response) : result R :=
  match json_parse env (Body resp) with
  | Fail e => Fail e
  | Ok v => unmarshal env fields v init
  end.




(** [postJSON], called as in [posted], hands back the error [e]. *)
Definition postFailed {R} (c : Client) (h : History) (url : string -> string)
    (request : JSON) (dec : JSON -> R -> result R) (init : R) (e : error)
  : Prop :=
  exists token res,
    cl_Token c h = Ok token
    /\ fst (cl_postJSON c (url token) request dec init
              ((h ++ [EvToken (Ok token)]) ++ [EvPostJSON (url token) request]))
       = (Some e, res).

(** The error that the decoding of an upload answer ends with, if any. *)
Definition uploadDecodeError (env : Env) (mediaType : string)
    (resp : Response) : option error :=
  if (mediaType =? media.MEDIA_TYPE_THUMB)%string then
    match decodeBody env thumbResult_fields thumbResult_zero resp with
    | Fail e => Some e
    | Ok _ => None
    end
  else
    match decodeBody env uploadResult_fields uploadResult_zero resp with
    | Fail e => Some e
    | Ok _ => None
    end.

(** *** Further runs of the fake client *)

(** The form that the fake [multipart] makes of the file [a.jpg]. *)
Definition formBody : bytes :=
  list_byte_of_string (Fake.partHeader "XYZ" "file" "a.jpg")
  ++ list_byte_of_string "JPEG"
  ++ list_byte_of_string (Fake.trailer "XYZ").

(** A reader that breaks off before it delivers anything. *)
Definition brokenReader : Reader := mkReader [] (Some Fake.NetDown).

Definition truncatedAnswer : Response := jsonAnswer "{'type':".

Definition accepted : Response := jsonAnswer "{'errcode':0,'errmsg':'ok'}".


(** An answer to the filter query that lists one order. *)
Definition orderList : Response :=
  jsonAnswer "{'errcode':0,'errmsg':'ok','order_list':[{}]}".

(** The fake environment with a form writer that cannot write its closing
    boundary. *)
Definition ShortBuffer : error := errorExt "multipart" "short buffer".

Definition shortBufferEnv : Env := {|
  json_parse := json_parse Fake.env;
  json_Marshal := json_Marshal Fake.env;
  json_EqualFold := json_EqualFold Fake.env;
  mime_ParseMediaType := mime_ParseMediaType Fake.env;
  multipart_boundary := multipart_boundary Fake.env;
  multipart_CreateFormFile := multipart_CreateFormFile Fake.env;
  multipart_FormDataContentType := multipart_FormDataContentType Fake.env;
  multipart_Close := fun _ _ => Fail ShortBuffer;
  os_Open := os_Open Fake.env;
  os_Create := os_Create Fake.env;
  filepath_Base := filepath_Base Fake.env;
  mediaUploadURL := mediaUploadURL Fake.env;
  mediaDownloadURL := mediaDownloadURL Fake.env;
  mediaUploadNewsURL := mediaUploadNewsURL Fake.env;
  mediaUploadVideoURL := mediaUploadVideoURL Fake.env;
  merchantOrderGetByIdURL := merchantOrderGetByIdURL Fake.env;
  merchantOrderGetByFilterURL := merchantOrderGetByFilterURL Fake.env;
  merchantOrderSetDeliveryURL := merchantOrderSetDeliveryURL Fake.env;
  merchantOrderCloseURL := merchantOrderCloseURL Fake.env;
  News := News Fake.env;
  News_json := News_json Fake.env;
  Video := Video Fake.env;
  Video_json := Video_json Fake.env;
  Order := Order Fake.env;
  Order_zero := Order_zero Fake.env;
  Order_unmarshal := Order_unmarshal Fake.env
|}.

(* ================================================================== *)
(** ** Proof tools *)

Ltac unfold_go :=
  unfold orReturn, orReturnPure, defer, Token, httpClient_Post, httpClient_Get,
    postJSON, getBufferFromPool, putBufferToPool, Body_Close, Decode,
    bind, ret, emit, ask, peek in *.

(** Split on the innermost scrutinee of the goal. *)
Ltac break_match :=
  match goal with
  | |- context [match ?x with _ => _ end] =>
      lazymatch x with
      | context [match _ with _ => _ end] => fail
      | _ => destruct x eqn:?
      end
  end.

Ltac run := unfold_go; repeat (break_match; simpl in *).

(** Membership in a trace that is written out. *)
Ltac in_trace :=
  repeat match goal with
         | H : In _ (_ :: _) |- _ => destruct H as [H | H]
         | H : In _ [] |- _ => destruct H
         | H : _ \/ _ |- _ => destruct H as [H | H]
         | H : False |- _ => destruct H
         end.

Lemma specClient_conforming env token post get :
  conforming env (specClient env token post get).
Proof. intros R url request dec response h. reflexivity. Qed.

Lemma isMediaType_true mediaType :
  isMediaType mediaType = true <-> In mediaType mediaTypes.
Proof.
  unfold isMediaType, mediaTypes. simpl.
  rewrite !orb_true_iff, !String.eqb_eq. intuition congruence.
Qed.

Lemma isMediaType_false mediaType :
  isMediaType mediaType = false <-> ~ In mediaType mediaTypes.
Proof.
  rewrite <- isMediaType_true.
  destruct (isMediaType mediaType); intuition congruence.
Qed.

(* ================================================================== *)
(** ** Preconditions (C1, C9) *)

Lemma MediaUpload_bad_type env c mediaType filename mediaReader h :
  ~ In mediaType mediaTypes ->
  MediaUpload env c mediaType filename mediaReader h
  = ((None, Some errBadMediaType), []).
Proof.
  intros H. apply isMediaType_false in H.
  unfold MediaUpload. rewrite H. reflexivity.
Qed.

Lemma MediaUpload_empty_filename env c mediaType mediaReader h :
  In mediaType mediaTypes ->
  MediaUpload env c mediaType "" mediaReader h
  = ((None, Some errEmptyFilename), []).
Proof.
  intros H. apply isMediaType_true in H.
  unfold MediaUpload. rewrite H. reflexivity.
Qed.

Lemma MediaUpload_nil_reader env c mediaType filename h :
  In mediaType mediaTypes -> filename <> "" ->
  MediaUpload env c mediaType filename None h
  = ((None, Some errNilReader), []).
Proof.
  intros H Hf. apply isMediaType_true in H. apply String.eqb_neq in Hf.
  unfold MediaUpload. rewrite H, Hf. reflexivity.
Qed.

Lemma MediaDownload_empty_id env c writer h :
  MediaDownload env c "" writer h = ((Some errEmptyMediaId, writer), []).
Proof. reflexivity. Qed.

Lemma MediaDownload_nil_writer env c mediaId h :
  mediaId <> "" ->
  MediaDownload env c mediaId None h = ((Some errNilWriter, None), []).
Proof.
  intros Hm. apply String.eqb_neq in Hm.
  unfold MediaDownload. rewrite Hm. reflexivity.
Qed.

(** The file wrappers reach the check of the wrapped operation once the
    file is open. *)
Lemma MediaUploadFromFile_bad_type env c mediaType filePath h :
  ~ In mediaType mediaTypes ->
  offline (snd (MediaUploadFromFile env c mediaType filePath h)) /\
  (forall file, os_Open env filePath h = Ok file ->
     fst (MediaUploadFromFile env c mediaType filePath h)
     = (None, Some errBadMediaType)).
Proof.
  intros H. unfold MediaUploadFromFile. unfold_go.
  destruct (os_Open env filePath h) eqn:Hopen; simpl.
  - rewrite MediaUpload_bad_type by assumption. simpl. split.
    + intros e He. in_trace; subst; reflexivity.
    + reflexivity.
  - split.
    + intros e' He. in_trace; subst; reflexivity.
    + discriminate.
Qed.

Lemma MediaDownloadToFile_empty_id env c filePath h :
  offline (snd (MediaDownloadToFile env c "" filePath h)) /\
  (forall file, os_Create env filePath h = Ok file ->
     MediaDownloadToFile env c "" filePath h
     = (Some errEmptyMediaId,
        [EvCreate filePath true; EvFileClose filePath (wr_sunk file)])).
Proof.
  unfold MediaDownloadToFile. unfold_go.
  destruct (os_Create env filePath h) eqn:Hcreate; simpl.
  - split.
    + intros e He. in_trace; subst; reflexivity.
    + intros file Hf. inversion Hf. reflexivity.
  - split.
    + intros e' He. in_trace; subst; reflexivity.
    + discriminate.
Qed.

(** The merchant-order operations check nothing: whatever the arguments,
    the first thing they do is to fetch a token. *)
Lemma merchant_operations_start_with_token env c h :
  (forall orderId, exists rest,
     snd (MerchantOrderGetById env c orderId h)
     = EvToken (cl_Token c h) :: rest) /\
  (forall status beginTime endTime, exists rest,
     snd (MerchantOrderGetByFilter env c status beginTime endTime h)
     = EvToken (cl_Token c h) :: rest) /\
  (forall orderId company trackNo, exists rest,
     snd (MerchantOrderSetDelivery env c orderId company trackNo h)
     = EvToken (cl_Token c h) :: rest) /\
  (forall orderId, exists rest,
     snd (MerchantOrderClose env c orderId h)
     = EvToken (cl_Token c h) :: rest).
Proof.
  repeat split; intros;
    unfold MerchantOrderGetById, MerchantOrderGetByFilter,
      MerchantOrderSetDelivery, MerchantOrderClose;
    run; eexists; reflexivity.
Qed.

(** With the token, the next thing they do is to hand the request to
    [postJSON], with the arguments as they came; without it, they return
    the error of the token fetch and do nothing else. *)
Lemma merchant_operations_hand_over env c h :
  (forall token,
     cl_Token c h = Ok token ->
     (forall orderId, exists rest,
        snd (MerchantOrderGetById env c orderId h)
        = EvToken (Ok token)
          :: EvPostJSON (merchantOrderGetByIdURL env token)
               (orderIdRequest orderId)
          :: rest)
     /\ (forall status beginTime endTime, exists rest,
           snd (MerchantOrderGetByFilter env c status beginTime endTime h)
           = EvToken (Ok token)
             :: EvPostJSON (merchantOrderGetByFilterURL env token)
                  (filterRequest status beginTime endTime)
             :: rest)
     /\ (forall orderId company trackNo, exists rest,
           snd (MerchantOrderSetDelivery env c orderId company trackNo h)
           = EvToken (Ok token)
             :: EvPostJSON (merchantOrderSetDeliveryURL env token)
                  (deliveryRequest orderId company trackNo)
             :: rest)
     /\ (forall orderId, exists rest,
           snd (MerchantOrderClose env c orderId h)
           = EvToken (Ok token)
             :: EvPostJSON (merchantOrderCloseURL env token)
                  (orderIdRequest orderId)
             :: rest))
  /\ (forall e,
        cl_Token c h = Fail e ->
        (forall orderId,
           MerchantOrderGetById env c orderId h
           = ((None, Some e), [EvToken (Fail e)]))
        /\ (forall status beginTime endTime,
              MerchantOrderGetByFilter env c status beginTime endTime h
              = ((None, Some e), [EvToken (Fail e)]))
        /\ (forall orderId company trackNo,
              MerchantOrderSetDelivery env c orderId company trackNo h
              = (Some e, [EvToken (Fail e)]))
        /\ (forall orderId,
              MerchantOrderClose env c orderId h
              = (Some e, [EvToken (Fail e)]))).
Proof.
  split.
  - intros token Htoken.
    repeat apply conj; intros;
      unfold MerchantOrderGetById, MerchantOrderGetByFilter,
        MerchantOrderSetDelivery, MerchantOrderClose, postJSON;
      unfold_go; simpl; rewrite Htoken; simpl;
      repeat (break_match; simpl in *); eexists; reflexivity.
  - intros e Htoken.
    repeat apply conj; intros;
      unfold MerchantOrderGetById, MerchantOrderGetByFilter,
        MerchantOrderSetDelivery, MerchantOrderClose;
      unfold_go; simpl; rewrite Htoken; reflexivity.
Qed.

(** C1, as amended.  A precondition violation in [MediaUpload] (a media
    type outside the four, an empty filename, a nil reader), in
    [MediaDownload] (an empty media id, a nil writer), in [MediaUploadNews]
    or [MediaUploadVideo] (a nil payload) makes the operation return the
    descriptive precondition error without any effect: no token fetch, no
    HTTP request.  The file wrappers open or create the file first and then
    do the same, still without network call.  The four merchant-order
    operations check nothing locally: whatever the identifier, the empty
    one included, they start by fetching a token; with the token, they
    hand the request that carries the arguments as they came to
    [postJSON]; without it, they return the error of the token fetch and
    do nothing else. *)
Theorem C1_preconditions_before_network env c h :
  (forall mediaType filename mediaReader,
     ~ In mediaType mediaTypes ->
     MediaUpload env c mediaType filename mediaReader h
     = ((None, Some errBadMediaType), []))
  /\ (forall mediaType mediaReader,
        In mediaType mediaTypes ->
        MediaUpload env c mediaType "" mediaReader h
        = ((None, Some errEmptyFilename), []))
  /\ (forall mediaType filename,
        In mediaType mediaTypes -> filename <> "" ->
        MediaUpload env c mediaType filename None h
        = ((None, Some errNilReader), []))
  /\ (forall writer,
        MediaDownload env c "" writer h = ((Some errEmptyMediaId, writer), []))
  /\ (forall mediaId,
        mediaId <> "" ->
        MediaDownload env c mediaId None h = ((Some errNilWriter, None), []))
  /\ MediaUploadNews env c None h = ((None, Some errNilNews), [])
  /\ MediaUploadVideo env c None h = ((None, Some errNilVideo), [])
  /\ (forall mediaType filePath,
        ~ In mediaType mediaTypes ->
        offline (snd (MediaUploadFromFile env c mediaType filePath h)) /\
        (forall file, os_Open env filePath h = Ok file ->
           fst (MediaUploadFromFile env c mediaType filePath h)
           = (None, Some errBadMediaType)))
  /\ (forall filePath,
        offline (snd (MediaDownloadToFile env c "" filePath h)) /\
        (forall file, os_Create env filePath h = Ok file ->
           MediaDownloadToFile env c "" filePath h
           = (Some errEmptyMediaId,
              [EvCreate filePath true; EvFileClose filePath (wr_sunk file)])))
  /\ (forall orderId, exists rest,
        snd (MerchantOrderGetById env c orderId h)
        = EvToken (cl_Token c h) :: rest)
  /\ (forall status beginTime endTime, exists rest,
        snd (MerchantOrderGetByFilter env c status beginTime endTime h)
        = EvToken (cl_Token c h) :: rest)
  /\ (forall orderId company trackNo, exists rest,
        snd (MerchantOrderSetDelivery env c orderId company trackNo h)
        = EvToken (cl_Token c h) :: rest)
  /\ (forall orderId, exists rest,
        snd (MerchantOrderClose env c orderId h)
        = EvToken (cl_Token c h) :: rest)
  /\ (forall token,
        cl_Token c h = Ok token ->
        (forall orderId, exists rest,
           snd (MerchantOrderGetById env c orderId h)
           = EvToken (Ok token)
             :: EvPostJSON (merchantOrderGetByIdURL env token)
                  (orderIdRequest orderId)
             :: rest)
        /\ (forall status beginTime endTime, exists rest,
              snd (MerchantOrderGetByFilter env c status beginTime endTime h)
              = EvToken (Ok token)
                :: EvPostJSON (merchantOrderGetByFilterURL env token)
                     (filterRequest status beginTime endTime)
                :: rest)
        /\ (forall orderId company trackNo, exists rest,
              snd (MerchantOrderSetDelivery env c orderId company trackNo h)
              = EvToken (Ok token)
                :: EvPostJSON (merchantOrderSetDeliveryURL env token)
                     (deliveryRequest orderId company trackNo)
                :: rest)
        /\ (forall orderId, exists rest,
              snd (MerchantOrderClose env c orderId h)
              = EvToken (Ok token)
                :: EvPostJSON (merchantOrderCloseURL env token)
                     (orderIdRequest orderId)
                :: rest))
  /\ (forall e,
        cl_Token c h = Fail e ->
        (forall orderId,
           MerchantOrderGetById env c orderId h
           = ((None, Some e), [EvToken (Fail e)]))
        /\ (forall status beginTime endTime,
              MerchantOrderGetByFilter env c status beginTime endTime h
              = ((None, Some e), [EvToken (Fail e)]))
        /\ (forall orderId company trackNo,
              MerchantOrderSetDelivery env c orderId company trackNo h
              = (Some e, [EvToken (Fail e)]))
        /\ (forall orderId,
              MerchantOrderClose env c orderId h
              = (Some e, [EvToken (Fail e)]))).
Proof.
  split; [ intros; now apply MediaUpload_bad_type | ].
  split; [ intros; now apply MediaUpload_empty_filename | ].
  split; [ intros; now apply MediaUpload_nil_reader | ].
  split; [ intros; apply MediaDownload_empty_id | ].
  split; [ intros; now apply MediaDownload_nil_writer | ].
  split; [ reflexivity | ].
  split; [ reflexivity | ].
  split; [ intros; now apply MediaUploadFromFile_bad_type | ].
  split; [ intros; apply MediaDownloadToFile_empty_id | ].
  destruct (merchant_operations_start_with_token env c h)
    as (Hbyid & Hfilter & Hdelivery & Hclose).
  split; [ exact Hbyid | ].
  split; [ exact Hfilter | ].
  split; [ exact Hdelivery | ].
  split; [ exact Hclose | ].
  apply merchant_operations_hand_over.
Qed.

(** The checks of C1 on the fake client: a PDF upload, an upload without
    reader, a download without writer, an upload from a file with a wrong
    type; an order lookup with the empty id, which goes to [postJSON], and
    one without token. *)
Lemma C1_witness :
  MediaUpload Fake.env (Fake.client (jsonAnswer "{}")) "pdf" "a.pdf"
    (Some jpeg) []
  = ((None, Some errBadMediaType), [])
  /\ MediaUpload Fake.env (Fake.client (jsonAnswer "{}")) "image" "a.jpg" None []
     = ((None, Some errNilReader), [])
  /\ MediaDownload Fake.env (Fake.client (jsonAnswer "{}")) "id" None []
     = ((Some errNilWriter, None), [])
  /\ fst (MediaUploadFromFile Fake.env (Fake.client (jsonAnswer "{}")) "pdf"
            "in.jpg" [])
     = (None, Some errBadMediaType)
  /\ (exists rest,
        snd (MerchantOrderGetById Fake.env (Fake.client (jsonAnswer "{}")) "" [])
        = EvToken (Ok "TOKEN")
          :: EvPostJSON (merchantOrderGetByIdURL Fake.env "TOKEN")
               (orderIdRequest "")
          :: rest)
  /\ MerchantOrderGetById Fake.env (Fake.clientNoToken (jsonAnswer "{}")) "" []
     = ((None, Some Fake.TokenDown), [EvToken (Fail Fake.TokenDown)]).
Proof.
  destruct (C1_preconditions_before_network Fake.env
              (Fake.client (jsonAnswer "{}")) [])
    as (Htype & _ & Hreader & _ & Hwriter & _ & _ & Hfile & _ & _ & _ & _ & _
        & Hpost & _).
  destruct (C1_preconditions_before_network Fake.env
              (Fake.clientNoToken (jsonAnswer "{}")) [])
    as (_ & _ & _ & _ & _ & _ & _ & _ & _ & _ & _ & _ & _ & _ & Hfail).
  split; [ apply Htype; simpl; intuition discriminate | ].
  split; [ apply Hreader; [ simpl; tauto | discriminate ] | ].
  split; [ apply Hwriter; discriminate | ].
  split.
  { destruct (Hfile "pdf" "in.jpg") as [_ Hopen];
      [ simpl; intuition discriminate | ].
    apply (Hopen jpeg). reflexivity. }
  split.
  - destruct (Hpost "TOKEN" eq_refl) as [Hbyid _]. apply Hbyid.
  - destruct (Hfail Fake.TokenDown eq_refl) as [Hbyid _]. apply Hbyid.
Defined.

(** C1 as stated fails for the operations that take an order id:
    [MerchantOrderGetById] with the empty id returns no error at all, after
    a token fetch and an HTTP request. *)
Lemma C1_counterexample :
  fst emptyOrderIdRun = (Some (JObject []), None)
  /\ map label (snd emptyOrderIdRun)
     = ["Token"; "postJSON"; "POST"; "Decode"; "Body.Close"]
  /\ ~ offline (snd emptyOrderIdRun).
Proof.
  split; [ reflexivity | ].
  split; [ reflexivity | ].
  intros Hoff.
  specialize (Hoff (EvToken (Ok "TOKEN"))).
  assert (Hin : In (EvToken (Ok "TOKEN")) (snd emptyOrderIdRun))
    by (left; reflexivity).
  apply Hoff in Hin. discriminate Hin.
Qed.

(* ================================================================== *)
(** ** The pooled buffer (C8) *)

(** C8.  Whatever the arguments, the collaborators and the exit taken,
    [MediaUpload] returns to the pool every buffer it draws: it draws at
    most one, and when it has drawn one, returning it is the last thing the
    call does. *)
Theorem C8_pooled_buffer_returned env c mediaType filename mediaReader h :
  drawn (snd (MediaUpload env c mediaType filename mediaReader h))
  = returned (snd (MediaUpload env c mediaType filename mediaReader h))
  /\ (drawn (snd (MediaUpload env c mediaType filename mediaReader h)) <= 1)%nat
  /\ (In EvGetBuffer (snd (MediaUpload env c mediaType filename mediaReader h)) ->
      last (snd (MediaUpload env c mediaType filename mediaReader h)) EvGetBuffer
      = EvPutBuffer).
Proof.
  unfold MediaUpload, decodeUpload, copyToPart. run.
  all: cbn; repeat split; auto; intros; in_trace; try discriminate.
Qed.

Ltac unfold_ops :=
  unfold MediaUploadFromFile, MediaDownloadToFile, MediaUpload, MediaDownload,
    MediaUploadNews, MediaUploadVideo, MerchantOrderGetById,
    MerchantOrderGetByFilter, MerchantOrderSetDelivery, MerchantOrderClose,
    decodeUpload, copyToPart in *.

(** The buffer goes back on each of the six exits after it was drawn: the
    reader fails while the form is encoded, the transport fails, the status
    is not 200, the answer does not decode, the platform reports an error,
    the upload succeeds. *)
Example MediaUpload_exits :
  map label (snd (MediaUpload Fake.env (Fake.client (jsonAnswer "{}")) "image"
                    "a.jpg" (Some (mkReader [] (Some Fake.NetDown))) []))
  = ["Token"; "getBuffer"; "putBuffer"]
  /\ map label (snd (MediaUpload Fake.env Fake.clientNoNet "image" "a.jpg"
                       (Some jpeg) []))
     = ["Token"; "getBuffer"; "POST"; "putBuffer"]
  /\ map label (snd (MediaUpload Fake.env (Fake.client answer500) "image"
                       "a.jpg" (Some jpeg) []))
     = ["Token"; "getBuffer"; "POST"; "Body.Close"; "putBuffer"]
  /\ map label (snd (MediaUpload Fake.env (Fake.client (jsonAnswer "{'type':"))
                       "image" "a.jpg" (Some jpeg) []))
     = ["Token"; "getBuffer"; "POST"; "Decode"; "Body.Close"; "putBuffer"]
  /\ map label (snd (MediaUpload Fake.env
                       (Fake.client (jsonAnswer "{'errcode':40004}"))
                       "image" "a.jpg" (Some jpeg) []))
     = ["Token"; "getBuffer"; "POST"; "Decode"; "Body.Close"; "putBuffer"]
  /\ map label (snd (MediaUpload Fake.env
                       (Fake.client (jsonAnswer "{'media_id':'M'}"))
                       "image" "a.jpg" (Some jpeg) []))
     = ["Token"; "getBuffer"; "POST"; "Decode"; "Body.Close"; "putBuffer"].
Proof. repeat split; reflexivity. Qed.

(** C8 where the answer does not decode. *)
Lemma C8_witness :
  In EvGetBuffer
    (snd (MediaUpload Fake.env (Fake.client (jsonAnswer "{'type':")) "image"
            "a.jpg" (Some jpeg) []))
  /\ last (snd (MediaUpload Fake.env (Fake.client (jsonAnswer "{'type':"))
                  "image" "a.jpg" (Some jpeg) [])) EvGetBuffer
     = EvPutBuffer.
Proof.
  assert (Hin : In EvGetBuffer
            (snd (MediaUpload Fake.env (Fake.client (jsonAnswer "{'type':"))
                    "image" "a.jpg" (Some jpeg) [])))
    by (right; left; reflexivity).
  split; [ exact Hin | ].
  apply (C8_pooled_buffer_returned Fake.env
           (Fake.client (jsonAnswer "{'type':")) "image" "a.jpg"
           (Some jpeg) []).
  exact Hin.
Defined.

(* ================================================================== *)
(** ** The HTTP status (C6) *)

Ltac status_case :=
  let resp := fresh "resp" in
  let Hans := fresh "Hans" in
  let Hne := fresh "Hne" in
  unfold statusError; intros resp Hans Hne;
  destruct Hans as [(?u & ?ct & ?b & Hans) | (?u & Hans)];
  in_trace; try discriminate;
  match goal with
  | H : _ = _ :> Event |- _ => injection H as; subst
  end;
  first
    [ exfalso;
      match goal with
      | H : negb (StatusCode _ =? _)%Z = false |- _ =>
          apply negb_false_iff, Z.eqb_eq in H; contradiction
      end
    | split; [ reflexivity | intros ?e ?He; in_trace; subst; reflexivity ] ].

(** The operations that go through [postJSON], for a client whose helper
    is the one the spec describes. *)
Ltac status_postJSON Hc :=
  unfold_ops; unfold postJSON; unfold_go;
  repeat first [ rewrite Hc; unfold postJSON_spec; unfold_go
               | break_match; simpl in * ];
  simpl; status_case.

Lemma MediaUpload_statusError env c mediaType filename mediaReader h :
  statusError (snd (MediaUpload env c mediaType filename mediaReader h))
    (snd (fst (MediaUpload env c mediaType filename mediaReader h))).
Proof. unfold_ops. run; simpl; status_case. Qed.

Lemma MediaDownload_statusError env c mediaId writer h :
  statusError (snd (MediaDownload env c mediaId writer h))
    (fst (fst (MediaDownload env c mediaId writer h))).
Proof. unfold_ops. run; simpl; status_case. Qed.

Lemma MediaUploadFromFile_statusError env c mediaType filePath h :
  statusError (snd (MediaUploadFromFile env c mediaType filePath h))
    (snd (fst (MediaUploadFromFile env c mediaType filePath h))).
Proof. unfold_ops. run; simpl; status_case. Qed.

Lemma MediaDownloadToFile_statusError env c mediaId filePath h :
  statusError (snd (MediaDownloadToFile env c mediaId filePath h))
    (fst (MediaDownloadToFile env c mediaId filePath h)).
Proof. unfold_ops. run; simpl; status_case. Qed.

Lemma MediaUpload_refused env c h mediaType filename rd token body ct resp :
  refusedUpload env c h mediaType filename rd token body ct resp ->
  MediaUpload env c mediaType filename (Some rd) h
  = ((None, Some (http_Status_error (Status resp))),
     refusedUploadTrace env mediaType token body ct resp).
Proof.
  intros (Htype & Hname & Htoken & (header & Hcreate & Hrd & Hclose & ->)
          & Hpost & Hne).
  apply isMediaType_true in Htype. apply String.eqb_neq in Hname.
  apply Z.eqb_neq in Hne.
  unfold MediaUpload, copyToPart, refusedUploadTrace.
  rewrite Htype, Hname. unfold_go. simpl.
  rewrite Htoken. simpl. rewrite <- !app_assoc. simpl.
  rewrite Hcreate, Hrd. simpl. rewrite Hclose. simpl.
  rewrite Hpost. simpl. rewrite Hne. reflexivity.
Qed.

Lemma MediaDownload_refused env c h mediaId dst token resp :
  refusedDownload env c h mediaId token resp ->
  MediaDownload env c mediaId (Some dst) h
  = ((Some (http_Status_error (Status resp)), Some dst),
     refusedDownloadTrace env mediaId token resp).
Proof.
  intros (Hid & Htoken & Hget & Hne).
  apply String.eqb_neq in Hid. apply Z.eqb_neq in Hne.
  unfold MediaDownload, refusedDownloadTrace. rewrite Hid. unfold_go. simpl.
  rewrite Htoken. simpl. rewrite Hget. simpl. rewrite Hne. reflexivity.
Qed.

Lemma MediaUploadFromFile_refused env c h mediaType filePath file token body
    ct resp :
  os_Open env filePath h = Ok file ->
  refusedUpload env c (h ++ [EvOpen filePath true]) mediaType
    (filepath_Base env filePath) file token body ct resp ->
  MediaUploadFromFile env c mediaType filePath h
  = ((None, Some (http_Status_error (Status resp))),
     EvOpen filePath true
     :: refusedUploadTrace env mediaType token body ct resp
     ++ [EvFileClose filePath []]).
Proof.
  intros Hopen Hrefused.
  unfold MediaUploadFromFile. unfold_go. simpl. rewrite Hopen. simpl.
  rewrite (MediaUpload_refused _ _ _ _ _ _ _ _ _ _ Hrefused). reflexivity.
Qed.

Lemma MediaDownloadToFile_refused env c h mediaId filePath file token resp :
  os_Create env filePath h = Ok file ->
  refusedDownload env c (h ++ [EvCreate filePath true]) mediaId token resp ->
  MediaDownloadToFile env c mediaId filePath h
  = (Some (http_Status_error (Status resp)),
     EvCreate filePath true
     :: refusedDownloadTrace env mediaId token resp
     ++ [EvFileClose filePath (wr_sunk file)]).
Proof.
  intros Hcreate Hrefused.
  unfold MediaDownloadToFile. unfold_go. simpl. rewrite Hcreate. simpl.
  rewrite (MediaDownload_refused _ _ _ _ file _ _ Hrefused). reflexivity.
Qed.

Ltac refused_postJSON Hc :=
  intros (?Htoken & ?Hpost & ?Hne);
  apply Z.eqb_neq in Hne;
  unfold_ops; unfold postJSON, refusedJSONTrace; unfold_go; simpl;
  rewrite Htoken; simpl;
  rewrite Hc; unfold postJSON_spec; unfold_go; simpl;
  rewrite Hpost; simpl; rewrite Hne; reflexivity.

Lemma postJSON_operations_refused env c h :
  conforming env c ->
  (forall n token resp,
     refusedJSON env c h (mediaUploadNewsURL env) (News_json env n) token resp ->
     MediaUploadNews env c (Some n) h
     = ((None, Some (http_Status_error (Status resp))),
        refusedJSONTrace env (mediaUploadNewsURL env) (News_json env n)
          token resp))
  /\ (forall v token resp,
        refusedJSON env c h (mediaUploadVideoURL env) (Video_json env v)
          token resp ->
        MediaUploadVideo env c (Some v) h
        = ((None, Some (http_Status_error (Status resp))),
           refusedJSONTrace env (mediaUploadVideoURL env) (Video_json env v)
             token resp))
  /\ (forall orderId token resp,
        refusedJSON env c h (merchantOrderGetByIdURL env)
          (orderIdRequest orderId) token resp ->
        MerchantOrderGetById env c orderId h
        = ((None, Some (http_Status_error (Status resp))),
           refusedJSONTrace env (merchantOrderGetByIdURL env)
             (orderIdRequest orderId) token resp))
  /\ (forall status beginTime endTime token resp,
        refusedJSON env c h (merchantOrderGetByFilterURL env)
          (filterRequest status beginTime endTime) token resp ->
        MerchantOrderGetByFilter env c status beginTime endTime h
        = ((None, Some (http_Status_error (Status resp))),
           refusedJSONTrace env (merchantOrderGetByFilterURL env)
             (filterRequest status beginTime endTime) token resp))
  /\ (forall orderId company trackNo token resp,
        refusedJSON env c h (merchantOrderSetDeliveryURL env)
          (deliveryRequest orderId company trackNo) token resp ->
        MerchantOrderSetDelivery env c orderId company trackNo h
        = (Some (http_Status_error (Status resp)),
           refusedJSONTrace env (merchantOrderSetDeliveryURL env)
             (deliveryRequest orderId company trackNo) token resp))
  /\ (forall orderId token resp,
        refusedJSON env c h (merchantOrderCloseURL env)
          (orderIdRequest orderId) token resp ->
        MerchantOrderClose env c orderId h
        = (Some (http_Status_error (Status resp)),
           refusedJSONTrace env (merchantOrderCloseURL env)
             (orderIdRequest orderId) token resp)).
Proof.
  intros Hc. repeat apply conj; intros until resp; refused_postJSON Hc.
Qed.

(** C6.  On every exposed operation, an answer with a status other than
    200 makes the call fail with the error whose message is [http.Status: ]
    followed by that status, and no response body is decoded in that call.
    The first ten parts say so of every answer found among the events of a
    call.  The last ten say that the call gets there: when the arguments
    pass the checks and the collaborators deliver up to the request, and
    the transport answers the request with a status other than 200, the
    call returns that error, and all it does is to fetch the token, send
    the request and run its deferred calls.  For the operations that post
    through [postJSON] the client's helper is the one the spec describes. *)
Theorem C6_status_before_decoding env c h :
  conforming env c ->
  (forall mediaType filename mediaReader,
     statusError (snd (MediaUpload env c mediaType filename mediaReader h))
       (snd (fst (MediaUpload env c mediaType filename mediaReader h))))
  /\ (forall mediaType filePath,
        statusError (snd (MediaUploadFromFile env c mediaType filePath h))
          (snd (fst (MediaUploadFromFile env c mediaType filePath h))))
  /\ (forall mediaId writer,
        statusError (snd (MediaDownload env c mediaId writer h))
          (fst (fst (MediaDownload env c mediaId writer h))))
  /\ (forall mediaId filePath,
        statusError (snd (MediaDownloadToFile env c mediaId filePath h))
          (fst (MediaDownloadToFile env c mediaId filePath h)))
  /\ (forall news,
        statusError (snd (MediaUploadNews env c news h))
          (snd (fst (MediaUploadNews env c news h))))
  /\ (forall video,
        statusError (snd (MediaUploadVideo env c video h))
          (snd (fst (MediaUploadVideo env c video h))))
  /\ (forall orderId,
        statusError (snd (MerchantOrderGetById env c orderId h))
          (snd (fst (MerchantOrderGetById env c orderId h))))
  /\ (forall status beginTime endTime,
        statusError
          (snd (MerchantOrderGetByFilter env c status beginTime endTime h))
          (snd (fst (MerchantOrderGetByFilter env c status beginTime endTime h))))
  /\ (forall orderId company trackNo,
        statusError
          (snd (MerchantOrderSetDelivery env c orderId company trackNo h))
          (fst (MerchantOrderSetDelivery env c orderId company trackNo h)))
  /\ (forall orderId,
        statusError (snd (MerchantOrderClose env c orderId h))
          (fst (MerchantOrderClose env c orderId h)))
  /\ (forall mediaType filename rd token body contentType resp,
        refusedUpload env c h mediaType filename rd token body contentType
          resp ->
        MediaUpload env c mediaType filename (Some rd) h
        = ((None, Some (http_Status_error (Status resp))),
           refusedUploadTrace env mediaType token body contentType resp))
  /\ (forall mediaType filePath file token body contentType resp,
        os_Open env filePath h = Ok file ->
        refusedUpload env c (h ++ [EvOpen filePath true]) mediaType
          (filepath_Base env filePath) file token body contentType resp ->
        MediaUploadFromFile env c mediaType filePath h
        = ((None, Some (http_Status_error (Status resp))),
           EvOpen filePath true
           :: refusedUploadTrace env mediaType token body contentType resp
           ++ [EvFileClose filePath []]))
  /\ (forall mediaId dst token resp,
        refusedDownload env c h mediaId token resp ->
        MediaDownload env c mediaId (Some dst) h
        = ((Some (http_Status_error (Status resp)), Some dst),
           refusedDownloadTrace env mediaId token resp))
  /\ (forall mediaId filePath file token resp,
        os_Create env filePath h = Ok file ->
        refusedDownload env c (h ++ [EvCreate filePath true]) mediaId token
          resp ->
        MediaDownloadToFile env c mediaId filePath h
        = (Some (http_Status_error (Status resp)),
           EvCreate filePath true
           :: refusedDownloadTrace env mediaId token resp
           ++ [EvFileClose filePath (wr_sunk file)]))
  /\ (forall n token resp,
        refusedJSON env c h (mediaUploadNewsURL env) (News_json env n) token
          resp ->
        MediaUploadNews env c (Some n) h
        = ((None, Some (http_Status_error (Status resp))),
           refusedJSONTrace env (mediaUploadNewsURL env) (News_json env n)
             token resp))
  /\ (forall v token resp,
        refusedJSON env c h (mediaUploadVideoURL env) (Video_json env v)
          token resp ->
        MediaUploadVideo env c (Some v) h
        = ((None, Some (http_Status_error (Status resp))),
           refusedJSONTrace env (mediaUploadVideoURL env) (Video_json env v)
             token resp))
  /\ (forall orderId token resp,
        refusedJSON env c h (merchantOrderGetByIdURL env)
          (orderIdRequest orderId) token resp ->
        MerchantOrderGetById env c orderId h
        = ((None, Some (http_Status_error (Status resp))),
           refusedJSONTrace env (merchantOrderGetByIdURL env)
             (orderIdRequest orderId) token resp))
  /\ (forall status beginTime endTime token resp,
        refusedJSON env c h (merchantOrderGetByFilterURL env)
          (filterRequest status beginTime endTime) token resp ->
        MerchantOrderGetByFilter env c status beginTime endTime h
        = ((None, Some (http_Status_error (Status resp))),
           refusedJSONTrace env (merchantOrderGetByFilterURL env)
             (filterRequest status beginTime endTime) token resp))
  /\ (forall orderId company trackNo token resp,
        refusedJSON env c h (merchantOrderSetDeliveryURL env)
          (deliveryRequest orderId company trackNo) token resp ->
        MerchantOrderSetDelivery env c orderId company trackNo h
        = (Some (http_Status_error (Status resp)),
           refusedJSONTrace env (merchantOrderSetDeliveryURL env)
             (deliveryRequest orderId company trackNo) token resp))
  /\ (forall orderId token resp,
        refusedJSON env c h (merchantOrderCloseURL env)
          (orderIdRequest orderId) token resp ->
        MerchantOrderClose env c orderId h
        = (Some (http_Status_error (Status resp)),
           refusedJSONTrace env (merchantOrderCloseURL env)
             (orderIdRequest orderId) token resp)).
Proof.
  intros Hc.
  split; [ intros; apply MediaUpload_statusError | ].
  split; [ intros; apply MediaUploadFromFile_statusError | ].
  split; [ intros; apply MediaDownload_statusError | ].
  split; [ intros; apply MediaDownloadToFile_statusError | ].
  split; [ intros; status_postJSON Hc | ].
  split; [ intros; status_postJSON Hc | ].
  split; [ intros; status_postJSON Hc | ].
  split; [ intros; status_postJSON Hc | ].
  split; [ intros; status_postJSON Hc | ].
  split; [ intros; status_postJSON Hc | ].
  split; [ intros; now apply MediaUpload_refused | ].
  split; [ intros; now apply (MediaUploadFromFile_refused env c h) with file | ].
  split; [ intros; now apply MediaDownload_refused | ].
  split; [ intros; now apply (MediaDownloadToFile_refused env c h) | ].
  apply (postJSON_operations_refused env c h Hc).
Qed.

Ltac refused_upload :=
  split; [ simpl; tauto | ];
  split; [ discriminate | ];
  split; [ reflexivity | ];
  split; [ eexists; split; [ reflexivity | ]; split; [ reflexivity | ];
           split; reflexivity | ];
  split; [ reflexivity | discriminate ].

Ltac refused_download :=
  split; [ discriminate | ];
  split; [ reflexivity | ];
  split; [ reflexivity | discriminate ].

Ltac refused_JSON :=
  split; [ reflexivity | ]; split; [ reflexivity | discriminate ].

(** C6 on the fake client, every request answered with status 500: each of
    the ten operations returns the error that shows the status, after the
    token, the request and the deferred calls, and without decoding. *)
Lemma C6_witness :
  (snd (fst (MediaUpload Fake.env (Fake.client answer500) "image" "a.jpg"
               (Some jpeg) []))
   = Some status500
   /\ map label (snd (MediaUpload Fake.env (Fake.client answer500) "image"
                        "a.jpg" (Some jpeg) []))
      = ["Token"; "getBuffer"; "POST"; "Body.Close"; "putBuffer"])
  /\ (snd (fst (MediaUploadFromFile Fake.env (Fake.client answer500) "image"
                  "in.jpg" []))
      = Some status500
      /\ map label (snd (MediaUploadFromFile Fake.env (Fake.client answer500)
                           "image" "in.jpg" []))
         = ["Open"; "Token"; "getBuffer"; "POST"; "Body.Close"; "putBuffer";
            "File.Close"])
  /\ (fst (fst (MediaDownload Fake.env (Fake.client answer500) "id"
                  (Some (bufferWriter [])) []))
      = Some status500
      /\ map label (snd (MediaDownload Fake.env (Fake.client answer500) "id"
                           (Some (bufferWriter [])) []))
         = ["Token"; "GET"; "Body.Close"])
  /\ (fst (MediaDownloadToFile Fake.env (Fake.client answer500) "id"
             "out.jpg" [])
      = Some status500
      /\ map label (snd (MediaDownloadToFile Fake.env (Fake.client answer500)
                           "id" "out.jpg" []))
         = ["Create"; "Token"; "GET"; "Body.Close"; "File.Close"])
  /\ (snd (fst (MediaUploadNews Fake.env (Fake.client answer500)
                  (Some (JObject [])) []))
      = Some status500
      /\ map label (snd (MediaUploadNews Fake.env (Fake.client answer500)
                           (Some (JObject [])) []))
         = ["Token"; "postJSON"; "POST"; "Body.Close"])
  /\ (snd (fst (MediaUploadVideo Fake.env (Fake.client answer500)
                  (Some (JObject [])) []))
      = Some status500
      /\ map label (snd (MediaUploadVideo Fake.env (Fake.client answer500)
                           (Some (JObject [])) []))
         = ["Token"; "postJSON"; "POST"; "Body.Close"])
  /\ (snd (fst (MerchantOrderGetById Fake.env (Fake.client answer500) "7" []))
      = Some status500
      /\ map label (snd (MerchantOrderGetById Fake.env (Fake.client answer500)
                           "7" []))
         = ["Token"; "postJSON"; "POST"; "Body.Close"])
  /\ (snd (fst (MerchantOrderGetByFilter Fake.env (Fake.client answer500)
                  2 0 0 []))
      = Some status500
      /\ map label (snd (MerchantOrderGetByFilter Fake.env
                           (Fake.client answer500) 2 0 0 []))
         = ["Token"; "postJSON"; "POST"; "Body.Close"])
  /\ (fst (MerchantOrderSetDelivery Fake.env (Fake.client answer500) "7"
             "059Yunda" "1900" [])
      = Some status500
      /\ map label (snd (MerchantOrderSetDelivery Fake.env
                           (Fake.client answer500) "7" "059Yunda" "1900" []))
         = ["Token"; "postJSON"; "POST"; "Body.Close"])
  /\ (fst (MerchantOrderClose Fake.env (Fake.client answer500) "7" [])
      = Some status500
      /\ map label (snd (MerchantOrderClose Fake.env (Fake.client answer500)
                           "7" []))
         = ["Token"; "postJSON"; "POST"; "Body.Close"]).
Proof.
  destruct (@C6_status_before_decoding Fake.env (Fake.client answer500) []
              (specClient_conforming Fake.env (fun _ => Ok "TOKEN")
                 (fun _ _ _ _ => Ok answer500) (fun _ _ => Ok answer500)))
    as (_ & _ & _ & _ & _ & _ & _ & _ & _ & _ & Hupload & HuploadFile
        & Hdownload & HdownloadFile & Hnews & Hvideo & Hbyid & Hfilter
        & Hdelivery & Hclose).
  split.
  { assert (Hrun : exists body contentType,
               refusedUpload Fake.env (Fake.client answer500) [] "image"
                 "a.jpg" jpeg "TOKEN" body contentType answer500)
      by (do 2 eexists; refused_upload).
    destruct Hrun as (body & contentType & Hrun).
    rewrite (Hupload _ _ _ _ _ _ _ Hrun). split; reflexivity. }
  split.
  { assert (Hrun : exists body contentType,
               refusedUpload Fake.env (Fake.client answer500)
                 ([] ++ [EvOpen "in.jpg" true]) "image"
                 (filepath_Base Fake.env "in.jpg") jpeg "TOKEN" body
                 contentType answer500)
      by (do 2 eexists; refused_upload).
    destruct Hrun as (body & contentType & Hrun).
    rewrite (HuploadFile "image" "in.jpg" jpeg _ _ _ _ eq_refl Hrun).
    split; reflexivity. }
  split.
  { assert (Hrun : refusedDownload Fake.env (Fake.client answer500) [] "id"
                     "TOKEN" answer500)
      by refused_download.
    rewrite (Hdownload _ (bufferWriter []) _ _ Hrun). split; reflexivity. }
  split.
  { assert (Hrun : refusedDownload Fake.env (Fake.client answer500)
                     ([] ++ [EvCreate "out.jpg" true]) "id" "TOKEN" answer500)
      by refused_download.
    rewrite (HdownloadFile "id" "out.jpg" (bufferWriter []) _ _ eq_refl Hrun).
    split; reflexivity. }
  split.
  { assert (Hrun : refusedJSON Fake.env (Fake.client answer500) []
                     (mediaUploadNewsURL Fake.env)
                     (News_json Fake.env (JObject [])) "TOKEN" answer500)
      by refused_JSON.
    apply Hnews in Hrun.
    split; [ exact (f_equal (fun run => snd (fst run)) Hrun)
           | exact (f_equal (fun run => map label (snd run)) Hrun) ]. }
  split.
  { assert (Hrun : refusedJSON Fake.env (Fake.client answer500) []
                     (mediaUploadVideoURL Fake.env)
                     (Video_json Fake.env (JObject [])) "TOKEN" answer500)
      by refused_JSON.
    apply Hvideo in Hrun.
    split; [ exact (f_equal (fun run => snd (fst run)) Hrun)
           | exact (f_equal (fun run => map label (snd run)) Hrun) ]. }
  split.
  { rewrite (Hbyid "7" "TOKEN" answer500) by refused_JSON.
    split; reflexivity. }
  split.
  { rewrite (Hfilter 2%Z 0%Z 0%Z "TOKEN" answer500) by refused_JSON.
    split; reflexivity. }
  split.
  { rewrite (Hdelivery "7" "059Yunda" "1900" "TOKEN" answer500)
      by refused_JSON.
    split; reflexivity. }
  rewrite (Hclose "7" "TOKEN" answer500) by refused_JSON.
  split; reflexivity.
Defined.

(* ================================================================== *)
(** ** Downloads (C3, C4, C10) *)

Lemma MediaDownload_answered env c mediaId dst h url resp :
  In (EvGet url (Ok resp)) (snd (MediaDownload env c mediaId (Some dst) h)) ->
  StatusCode resp = http_StatusOK ->
  fst (MediaDownload env c mediaId (Some dst) h) = downloaded env dst resp.
Proof.
  intros Hin Hok. unfold MediaDownload in *. revert Hin.
  run; intros Hin; in_trace; try discriminate.
  all: injection Hin as; subst.
  all: try (rewrite Hok in *; discriminate).
  all: unfold downloaded, isErrorDocument, declaredType.
  all: rewrite <- negb_orb in *.
  all: match goal with
       | H : negb (?x || ?y) = _ |- _ => destruct (x || y); try discriminate H
       end.
  all: repeat match goal with
              | H : _ = _ |- _ => rewrite H
              end; reflexivity.
Qed.

(** A copy that reports no error has appended every slice. *)
Lemma io_copyBuffer_complete dst chunks er :
  fst (io_copyBuffer dst chunks er) = None ->
  er = None
  /\ wr_sunk (snd (io_copyBuffer dst chunks er)) = wr_sunk dst ++ concat chunks.
Proof.
  revert dst. induction chunks as [| p rest IH]; intros dst; simpl.
  - intros ->. now rewrite app_nil_r.
  - destruct p as [| b p']; [ apply IH | ].
    unfold Write.
    destruct (wr_Write dst (wr_sunk dst) (b :: p')) as [nw [e |]] eqn:Hw.
    + discriminate.
    + destruct (Nat.eqb nw (length (b :: p'))) eqn:Hn; [ | discriminate ].
      apply Nat.eqb_eq in Hn. intros Hnone.
      destruct (IH _ Hnone) as [Her Hsunk]. split; [ exact Her | ].
      rewrite Hsunk. cbn [wr_sunk].
      rewrite Hn, firstn_all, <- app_assoc. reflexivity.
Qed.

Lemma io_Copy_complete dst src :
  fst (io_Copy dst src) = None ->
  rd_err src = None
  /\ wr_sunk (snd (io_Copy dst src)) = wr_sunk dst ++ concat (rd_chunks src).
Proof. apply io_copyBuffer_complete. Qed.

(** An accepting writer takes everything that the source delivers, and the
    copy ends as the source does. *)
Lemma io_copyBuffer_accepting dst chunks er :
  accepting dst ->
  fst (io_copyBuffer dst chunks er) = er
  /\ wr_sunk (snd (io_copyBuffer dst chunks er)) = wr_sunk dst ++ concat chunks.
Proof.
  revert dst. induction chunks as [| p rest IH]; intros dst Hacc; simpl.
  - now rewrite app_nil_r.
  - destruct p as [| b p']; [ now apply IH | ].
    unfold Write. rewrite Hacc. rewrite Nat.eqb_refl.
    destruct (IH (mkWriter (wr_sunk dst ++ firstn (length (b :: p')) (b :: p'))
                    (wr_Write dst)))
      as [Herr Hsunk].
    { intros sunk q. apply Hacc. }
    split; [ exact Herr | ].
    rewrite Hsunk. cbn [wr_sunk].
    rewrite firstn_all, <- app_assoc. reflexivity.
Qed.

Lemma io_Copy_accepting dst src :
  accepting dst ->
  fst (io_Copy dst src) = rd_err src
  /\ wr_sunk (snd (io_Copy dst src)) = wr_sunk dst ++ concat (rd_chunks src).
Proof. apply io_copyBuffer_accepting. Qed.

(** A refusing writer stops the copy at the first byte. *)
Lemma io_Copy_refusing e dst src :
  refusing e dst -> concat (rd_chunks src) <> [] ->
  fst (io_Copy dst src) = Some e
  /\ wr_sunk (snd (io_Copy dst src)) = wr_sunk dst.
Proof.
  intros Href. unfold io_Copy.
  induction (rd_chunks src) as [| p rest IH]; simpl.
  - intros H. now contradiction H.
  - destruct p as [| b p']; [ exact IH | ].
    intros _. unfold Write. rewrite Href. simpl.
    now rewrite app_nil_r.
Qed.

Lemma bufferWriter_accepting already : accepting (bufferWriter already).
Proof. intros sunk p. reflexivity. Qed.

Lemma isErrorDocument_false env resp :
  declaredType env resp <> "text/plain" ->
  declaredType env resp <> "application/json" ->
  isErrorDocument env resp = false.
Proof.
  intros H1 H2. unfold isErrorDocument.
  apply String.eqb_neq in H1, H2. now rewrite H1, H2.
Qed.

Lemma isErrorDocument_true env resp :
  declaredType env resp = "text/plain"
  \/ declaredType env resp = "application/json" ->
  isErrorDocument env resp = true.
Proof.
  unfold isErrorDocument. intros [H | H]; rewrite H; reflexivity.
Qed.

(** The wire form of an envelope decodes to the envelope. *)
Lemma unmarshal_envelope env code msg :
  (minInt64 <= code <= maxInt64)%Z ->
  unmarshal env Error_fields
    (JObject [("errcode", JInt code); ("errmsg", JString msg)]) Error_zero
  = Ok (mkError code msg).
Proof.
  intros [Hlo Hhi]. apply Z.leb_le in Hlo, Hhi.
  unfold unmarshal, unmarshalStruct.
  cbn -[Z.leb minInt64 maxInt64].
  rewrite Hlo, Hhi. reflexivity.
Qed.

(** C3, as amended.  When the answer has status 200 and declares a type
    that is neither [text/plain] nor [application/json], the body is copied
    to the sink and the call returns what the copy returns.  When no error
    comes back, the body was read to its end and the sink has received
    exactly the body after what it held.  A sink that accepts every write
    receives every byte that the body stream delivers, and the call ends
    as the stream does: without error when the body was read to its end,
    with the read error when the stream broke off.  A sink that refuses
    its writes gives its error to the caller and keeps what it held. *)
Theorem C3_download_streams_body env c mediaId dst h url resp :
  In (EvGet url (Ok resp)) (snd (MediaDownload env c mediaId (Some dst) h)) ->
  StatusCode resp = http_StatusOK ->
  declaredType env resp <> "text/plain" ->
  declaredType env resp <> "application/json" ->
  fst (MediaDownload env c mediaId (Some dst) h)
  = (fst (io_Copy dst (Body resp)), Some (snd (io_Copy dst (Body resp))))
  /\ (fst (fst (MediaDownload env c mediaId (Some dst) h)) = None ->
      rd_err (Body resp) = None
      /\ option_map wr_sunk
           (snd (fst (MediaDownload env c mediaId (Some dst) h)))
         = Some (wr_sunk dst ++ Body_bytes resp))
  /\ (accepting dst ->
      fst (fst (MediaDownload env c mediaId (Some dst) h)) = rd_err (Body resp)
      /\ option_map wr_sunk
           (snd (fst (MediaDownload env c mediaId (Some dst) h)))
         = Some (wr_sunk dst ++ Body_bytes resp))
  /\ (forall e,
        refusing e dst -> Body_bytes resp <> [] ->
        fst (fst (MediaDownload env c mediaId (Some dst) h)) = Some e
        /\ option_map wr_sunk
             (snd (fst (MediaDownload env c mediaId (Some dst) h)))
           = Some (wr_sunk dst)).
Proof.
  intros Hin Hok Htext Hjson.
  rewrite (MediaDownload_answered _ _ _ _ _ _ _ Hin Hok).
  unfold downloaded. rewrite (isErrorDocument_false _ _ Htext Hjson).
  split; [ reflexivity | ]. cbn [fst snd option_map]. split; [ | split ].
  - intros Hnone.
    destruct (io_Copy_complete _ _ Hnone) as [Heof Hsunk].
    split; [ exact Heof | now rewrite Hsunk ].
  - intros Hacc.
    destruct (io_Copy_accepting dst (Body resp) Hacc) as [Herr Hsunk].
    split; [ exact Herr | now rewrite Hsunk ].
  - intros e Href Hbody.
    destruct (io_Copy_refusing e dst (Body resp) Href Hbody)
      as [Herr Hsunk].
    now rewrite Herr, Hsunk.
Qed.

(** C3 on the fake client: the bytes [BIN], declared as
    [application/octet-stream] and read to their end, go into an empty
    buffer. *)
Lemma C3_witness :
  fst (fst (MediaDownload Fake.env (Fake.client binAnswer) "id"
              (Some (bufferWriter [])) []))
  = None
  /\ option_map wr_sunk
       (snd (fst (MediaDownload Fake.env (Fake.client binAnswer) "id"
                    (Some (bufferWriter [])) [])))
     = Some (list_byte_of_string "BIN").
Proof.
  destruct (@C3_download_streams_body Fake.env (Fake.client binAnswer) "id"
              (bufferWriter []) []
              (mediaDownloadURL Fake.env "TOKEN" "id") binAnswer)
    as (_ & _ & Hcopy & _).
  - right. left. reflexivity.
  - reflexivity.
  - discriminate.
  - discriminate.
  - apply Hcopy. apply bufferWriter_accepting.
Defined.

(** C3 as stated fails in two ways, both with status 200 and the type
    [application/octet-stream].  When the sink does not take the bytes, the
    call returns the error of the writer, with nothing written.  When the
    body stream breaks off, the call returns the read error, with only the
    bytes delivered so far in the sink. *)
Lemma C3_counterexample :
  (In (EvGet (mediaDownloadURL Fake.env "TOKEN" "id") (Ok binAnswer))
     (snd closedSinkRun)
   /\ StatusCode binAnswer = http_StatusOK
   /\ declaredType Fake.env binAnswer = "application/octet-stream"
   /\ Body_bytes binAnswer = list_byte_of_string "BIN"
   /\ fst (fst closedSinkRun) = Some Fake.Closed
   /\ option_map wr_sunk (snd (fst closedSinkRun)) = Some [])
  /\ (In (EvGet (mediaDownloadURL Fake.env "TOKEN" "id") (Ok brokenAnswer))
        (snd brokenBodyRun)
      /\ StatusCode brokenAnswer = http_StatusOK
      /\ declaredType Fake.env brokenAnswer = "application/octet-stream"
      /\ fst (fst brokenBodyRun) = Some UnexpectedEOF
      /\ option_map wr_sunk (snd (fst brokenBodyRun))
         = Some (list_byte_of_string "BI")).
Proof.
  split.
  - split; [ right; left; reflexivity | ].
    repeat split; reflexivity.
  - split; [ right; left; reflexivity | ].
    repeat split; reflexivity.
Qed.

(** C4.  When the answer has status 200, declares [application/json] and
    its body is an error envelope, the call returns the error that carries
    the code and the message of the envelope as they are, and leaves the
    sink as it was.  This holds for every body that decodes as an envelope,
    and the object with the two members [errcode] and [errmsg] does. *)
Theorem C4_download_error_document env c mediaId dst h url resp v :
  In (EvGet url (Ok resp)) (snd (MediaDownload env c mediaId (Some dst) h)) ->
  StatusCode resp = http_StatusOK ->
  declaredType env resp = "application/json" ->
  json_parse env (Body resp) = Ok v ->
  (forall e,
     unmarshal env Error_fields v Error_zero = Ok e ->
     fst (MediaDownload env c mediaId (Some dst) h)
     = (Some (errorAPI e), Some dst))
  /\ (forall code msg,
        v = JObject [("errcode", JInt code); ("errmsg", JString msg)] ->
        (minInt64 <= code <= maxInt64)%Z ->
        fst (MediaDownload env c mediaId (Some dst) h)
        = (Some (errorAPI (mkError code msg)), Some dst)).
Proof.
  intros Hin Hok Hjson Hbody.
  rewrite (MediaDownload_answered _ _ _ _ _ _ _ Hin Hok).
  unfold downloaded.
  rewrite (isErrorDocument_true _ _ (or_intror Hjson)), Hbody.
  split.
  - intros e He. now rewrite He.
  - intros code msg -> Hrange. now rewrite unmarshal_envelope.
Qed.

(** C4 on the example of the spec. *)
Lemma C4_witness :
  fst (MediaDownload Fake.env (Fake.client invalidMediaId) "id"
         (Some (bufferWriter [])) [])
  = (Some (errorAPI (mkError 40007 "invalid media_id")),
     Some (bufferWriter [])).
Proof.
  destruct (@C4_download_error_document Fake.env (Fake.client invalidMediaId)
              "id" (bufferWriter []) []
              (mediaDownloadURL Fake.env "TOKEN" "id") invalidMediaId
              (JObject [("errcode", JInt 40007);
                        ("errmsg", JString "invalid media_id")]))
    as [_ Henvelope].
  - right. left. reflexivity.
  - reflexivity.
  - reflexivity.
  - reflexivity.
  - apply (Henvelope 40007%Z "invalid media_id").
    + reflexivity.
    + unfold minInt64, maxInt64. lia.
Defined.

(** C10.  When the answer has status 200 and declares [text/plain] or
    [application/json], the call always returns an error and leaves the
    sink as it was; when the body decodes as an envelope, the error is that
    envelope, whatever its code, zero included. *)
Theorem C10_error_document_always_fails env c mediaId dst h url resp :
  In (EvGet url (Ok resp)) (snd (MediaDownload env c mediaId (Some dst) h)) ->
  StatusCode resp = http_StatusOK ->
  declaredType env resp = "text/plain"
  \/ declaredType env resp = "application/json" ->
  (exists err,
     fst (MediaDownload env c mediaId (Some dst) h) = (Some err, Some dst))
  /\ (forall v e,
        json_parse env (Body resp) = Ok v ->
        unmarshal env Error_fields v Error_zero = Ok e ->
        fst (MediaDownload env c mediaId (Some dst) h)
        = (Some (errorAPI e), Some dst)).
Proof.
  intros Hin Hok Htype.
  rewrite (MediaDownload_answered _ _ _ _ _ _ _ Hin Hok).
  unfold downloaded. rewrite (isErrorDocument_true _ _ Htype). split.
  - destruct (json_parse env (Body resp)) as [v | err];
      [ | now exists err ].
    destruct (unmarshal env Error_fields v Error_zero) as [e | err];
      [ now exists (errorAPI e) | now exists err ].
  - intros v e Hv He. now rewrite Hv, He.
Qed.

(** C10 on a document that reports the code 0. *)
Lemma C10_witness :
  fst (MediaDownload Fake.env (Fake.client errcodeZero) "id"
         (Some (bufferWriter [])) [])
  = (Some (errorAPI (mkError 0 "ok")), Some (bufferWriter [])).
Proof.
  destruct (@C10_error_document_always_fails Fake.env
              (Fake.client errcodeZero) "id" (bufferWriter []) []
              (mediaDownloadURL Fake.env "TOKEN" "id") errcodeZero)
    as [_ Hdecoded].
  - right. left. reflexivity.
  - reflexivity.
  - left. reflexivity.
  - apply (Hdecoded
             (JObject [("errcode", JInt 0); ("errmsg", JString "ok")])
             (mkError 0 "ok")); reflexivity.
Defined.

(* ================================================================== *)
(** ** The identifier of an upload (C2) *)

Section FieldLemmas.
Variable EqualFold : string -> string -> bool.
Variable R : Type.






End FieldLemmas.

(** A key that is the name of a field selects that field, whatever the
    folding. *)
Lemma selectName_exact EqualFold names name folded :
  In name names -> selectName EqualFold names name folded = Some name.
Proof.
  revert folded. induction names as [| n rest IH]; intros folded; simpl.
  - intros [].
  - destruct (n =? name)%string eqn:Hn.
    + apply String.eqb_eq in Hn. now subst.
    + apply String.eqb_neq in Hn. intros [H | H]; [ contradiction | ].
      now apply IH.
Qed.

(** The last member named exactly as the field decides. *)
Lemma stringMember_last EqualFold names name ms s :
  In name names ->
  stringMember EqualFold names name (JObject (ms ++ [(name, JString s)])) = s.
Proof.
  intros Hin. unfold stringMember. simpl. rewrite fold_left_app. simpl.
  unfold stringStep at 1. simpl.
  rewrite (selectName_exact _ _ _ _ Hin), String.eqb_refl. reflexivity.
Qed.








(** Answers that carry both identifiers: a thumbnail upload returns [T1],
    an image upload [M1]. *)
Example MediaUpload_both_identifiers :
  fst (MediaUpload Fake.env (Fake.client (bothIds "thumb")) "thumb" "a.jpg"
         (Some jpeg) [])
  = (Some (media.mkUploadResponse "thumb" "T1" 1400000000), None)
  /\ fst (MediaUpload Fake.env (Fake.client (bothIds "image")) "image" "a.jpg"
            (Some jpeg) [])
     = (Some (media.mkUploadResponse "image" "M1" 1400000000), None).
Proof. split; reflexivity. Qed.


(* ================================================================== *)
(** ** Results and the error code (C7) *)

Ltac code_cases :=
  repeat match goal with
         | H : negb (_ =? _)%Z = true |- _ =>
             apply negb_true_iff, Z.eqb_neq in H
         | H : negb (_ =? _)%Z = false |- _ =>
             apply negb_false_iff, Z.eqb_eq in H
         end.

Ltac gated_result :=
  intros ?r ?Hr;
  first
    [ discriminate
    | try (injection Hr as; subst);
      split; [ reflexivity | ];
      eexists; split;
      [ eexists; split; [ reflexivity | ];
        match goal with H : cl_postJSON _ _ _ _ _ _ = _ |- _ => rewrite H end;
        reflexivity
      | split; [ assumption | first [ reflexivity | assumption ] ] ] ].

Ltac gated_answer :=
  intros ?res (?tok & ?Htok & ?Hpost) ?Hcode;
  first
    [ discriminate
    | injection Htok as; subst;
      match goal with
      | H : cl_postJSON _ _ _ _ _ _ = _ |- _ => rewrite H in Hpost
      end;
      simpl in Hpost;
      first
        [ discriminate
        | injection Hpost as; subst; first [ contradiction | reflexivity ] ] ].

Ltac gated_open :=
  unfold gated, posted; unfold_ops; unfold postJSON; unfold_go;
  repeat (break_match; simpl in *); code_cases.

Lemma MediaUploadNews_gated env c n h :
  gated (fst (MediaUploadNews env c (Some n) h))
    (posted c h (mediaUploadNewsURL env) (News_json env n)
       (unmarshal env uploadResult_fields) uploadResult_zero)
    up_Error (fun res => Some (up_UploadResponse res)).
Proof.
  gated_open.
  all: split; [ gated_result | split; gated_answer ].
Qed.

Lemma MediaUploadVideo_gated env c v h :
  gated (fst (MediaUploadVideo env c (Some v) h))
    (posted c h (mediaUploadVideoURL env) (Video_json env v)
       (unmarshal env uploadResult_fields) uploadResult_zero)
    up_Error (fun res => Some (up_UploadResponse res)).
Proof.
  gated_open.
  all: split; [ gated_result | split; gated_answer ].
Qed.

Lemma MerchantOrderGetById_gated env c orderId h :
  gated (fst (MerchantOrderGetById env c orderId h))
    (posted c h (merchantOrderGetByIdURL env) (orderIdRequest orderId)
       (unmarshal env (orderResult_fields (Order_unmarshal env)))
       (mkOrderResult Error_zero (Order_zero env)))
    or_Error (fun res => Some (or_Order res)).
Proof.
  gated_open.
  all: split; [ gated_result | split; gated_answer ].
Qed.

Lemma MerchantOrderGetByFilter_gated env c status beginTime endTime h :
  gated (fst (MerchantOrderGetByFilter env c status beginTime endTime h))
    (posted c h (merchantOrderGetByFilterURL env)
       (filterRequest status beginTime endTime)
       (unmarshal env (orderListResult_fields (Order_unmarshal env)
                         (Order_zero env)))
       (mkOrderListResult Error_zero (Some [])))
    ol_Error ol_OrderList.
Proof.
  gated_open.
  all: split; [ gated_result | split; gated_answer ].
Qed.

Ltac decoded_result :=
  intros ?r ?Hr;
  first
    [ discriminate
    | injection Hr as; subst;
      split; [ reflexivity | ];
      eexists; split;
      [ do 5 eexists; split; [ right; right; left; reflexivity | ];
        split; [ assumption | ];
        split; eassumption
      | split; [ assumption | reflexivity ] ] ].

Ltac decoded_answer :=
  intros ?res (?u & ?ct & ?b & ?resp & ?v & ?Hin & ?Hok & ?Hparse & ?Hdec)
    ?Hcode;
  in_trace;
  first
    [ discriminate
    | match goal with
      | H : _ = _ :> Event |- _ => injection H as; subst
      end;
      first
        [ congruence
        | match goal with
          | H : json_parse _ _ = _ |- _ => rewrite H in Hparse
          end;
          first
            [ discriminate
            | injection Hparse as; subst;
              match goal with
              | H : unmarshal _ _ _ _ = _ |- _ => rewrite H in Hdec
              end;
              first
                [ discriminate
                | injection Hdec as; subst;
                  first [ contradiction | reflexivity ] ] ] ] ].

Lemma MediaUpload_gated_thumb env c mediaType filename mediaReader h :
  mediaType = media.MEDIA_TYPE_THUMB ->
  gated (fst (MediaUpload env c mediaType filename mediaReader h))
    (decoded env (snd (MediaUpload env c mediaType filename mediaReader h))
       thumbResult_fields thumbResult_zero)
    thumb_Error
    (fun res => Some (media.mkUploadResponse (thumb_MediaType res)
                        (thumb_MediaId res) (thumb_CreatedAt res))).
Proof.
  intros ->. unfold gated, decoded. unfold_ops. run; code_cases.
  all: split; [ decoded_result | split; decoded_answer ].
Qed.

Lemma MediaUpload_gated_other env c mediaType filename mediaReader h :
  mediaType <> media.MEDIA_TYPE_THUMB ->
  gated (fst (MediaUpload env c mediaType filename mediaReader h))
    (decoded env (snd (MediaUpload env c mediaType filename mediaReader h))
       uploadResult_fields uploadResult_zero)
    up_Error (fun res => Some (up_UploadResponse res)).
Proof.
  intros Hthumb. apply String.eqb_neq in Hthumb.
  unfold gated, decoded. unfold_ops. rewrite Hthumb. run; code_cases.
  all: split; [ decoded_result | split; decoded_answer ].
Qed.

(** C7.  Each operation that returns a result ([MediaUpload],
    [MediaUploadNews], [MediaUploadVideo], [MerchantOrderGetById],
    [MerchantOrderGetByFilter]) is governed by the error code of the
    decoded answer: a result comes back only when that code is 0, and no
    error comes with it; when the code is not 0 the call fails with the
    envelope, code and message as decoded, and returns no result. *)
Theorem C7_result_only_with_code_zero env c h :
  (forall mediaType filename mediaReader,
     mediaType = media.MEDIA_TYPE_THUMB ->
     gated (fst (MediaUpload env c mediaType filename mediaReader h))
       (decoded env (snd (MediaUpload env c mediaType filename mediaReader h))
          thumbResult_fields thumbResult_zero)
       thumb_Error
       (fun res => Some (media.mkUploadResponse (thumb_MediaType res)
                           (thumb_MediaId res) (thumb_CreatedAt res))))
  /\ (forall mediaType filename mediaReader,
        mediaType <> media.MEDIA_TYPE_THUMB ->
        gated (fst (MediaUpload env c mediaType filename mediaReader h))
          (decoded env
             (snd (MediaUpload env c mediaType filename mediaReader h))
             uploadResult_fields uploadResult_zero)
          up_Error (fun res => Some (up_UploadResponse res)))
  /\ (forall n,
        gated (fst (MediaUploadNews env c (Some n) h))
          (posted c h (mediaUploadNewsURL env) (News_json env n)
             (unmarshal env uploadResult_fields) uploadResult_zero)
          up_Error (fun res => Some (up_UploadResponse res)))
  /\ (forall v,
        gated (fst (MediaUploadVideo env c (Some v) h))
          (posted c h (mediaUploadVideoURL env) (Video_json env v)
             (unmarshal env uploadResult_fields) uploadResult_zero)
          up_Error (fun res => Some (up_UploadResponse res)))
  /\ (forall orderId,
        gated (fst (MerchantOrderGetById env c orderId h))
          (posted c h (merchantOrderGetByIdURL env) (orderIdRequest orderId)
             (unmarshal env (orderResult_fields (Order_unmarshal env)))
             (mkOrderResult Error_zero (Order_zero env)))
          or_Error (fun res => Some (or_Order res)))
  /\ (forall status beginTime endTime,
        gated (fst (MerchantOrderGetByFilter env c status beginTime endTime h))
          (posted c h (merchantOrderGetByFilterURL env)
             (filterRequest status beginTime endTime)
             (unmarshal env (orderListResult_fields (Order_unmarshal env)
                               (Order_zero env)))
             (mkOrderListResult Error_zero (Some [])))
          ol_Error ol_OrderList).
Proof.
  split; [ intros; now apply MediaUpload_gated_thumb | ].
  split; [ intros; now apply MediaUpload_gated_other | ].
  split; [ intros; apply MediaUploadNews_gated | ].
  split; [ intros; apply MediaUploadVideo_gated | ].
  split; [ intros; apply MerchantOrderGetById_gated | ].
  intros; apply MerchantOrderGetByFilter_gated.
Qed.

(** C7 on the fake client: the platform answers a thumbnail upload and an
    order lookup with the code 40004. *)
Lemma C7_witness :
  fst (MediaUpload Fake.env (Fake.client remoteError) "thumb" "a.jpg"
         (Some jpeg) [])
  = (None, Some (errorAPI (mkError 40004 "invalid media type")))
  /\ fst (MerchantOrderGetById Fake.env (Fake.client remoteError) "7" [])
     = (None, Some (errorAPI (mkError 40004 "invalid media type"))).
Proof.
  destruct (C7_result_only_with_code_zero Fake.env (Fake.client remoteError) [])
    as (Hthumb & _ & _ & _ & Hbyid & _).
  split.
  - destruct (Hthumb "thumb" "a.jpg" (Some jpeg) eq_refl) as (_ & Hfail & _).
    apply (Hfail (mkThumbResult "" "" 0 (mkError 40004 "invalid media type"))).
    + do 5 eexists. split; [ right; right; left; reflexivity | ].
      split; [ reflexivity | ]. split; reflexivity.
    + discriminate.
  - destruct (Hbyid "7") as (_ & Hfail & _).
    apply (Hfail (mkOrderResult (mkError 40004 "invalid media type") JNull)).
    + exists "TOKEN". split; reflexivity.
    + discriminate.
Defined.

(* ================================================================== *)
(** ** The filter request (C5) *)

Lemma omitempty_keys name z key :
  In key (map fst (omitempty name z)) <-> key = name /\ z <> 0%Z.
Proof.
  unfold omitempty. destruct (z =? 0)%Z eqn:Hz; simpl.
  - apply Z.eqb_eq in Hz. intuition.
  - apply Z.eqb_neq in Hz. intuition.
Qed.

Lemma filterRequest_keys status beginTime endTime key :
  In key (keys (filterRequest status beginTime endTime))
  <-> (key = "status" /\ status <> 0%Z)
      \/ (key = "begintime" /\ beginTime <> 0%Z)
      \/ (key = "endtime" /\ endTime <> 0%Z).
Proof.
  unfold keys, filterRequest, members.
  rewrite !map_app, !in_app_iff, !omitempty_keys. tauto.
Qed.

(** C5.  [MerchantOrderGetByFilter] hands to [postJSON], for the URL built
    from the token, a request in which each of the keys [status],
    [begintime] and [endtime] is present exactly when its value is not
    zero, and then with that value; with the three values zero the request
    is the empty object. *)
Theorem C5_filter_request_omits_zero env c status beginTime endTime h :
  (forall token,
     cl_Token c h = Ok token ->
     exists rest,
       snd (MerchantOrderGetByFilter env c status beginTime endTime h)
       = EvToken (Ok token)
         :: EvPostJSON (merchantOrderGetByFilterURL env token)
              (filterRequest status beginTime endTime)
         :: rest)
  /\ (In "status" (keys (filterRequest status beginTime endTime))
      <-> status <> 0%Z)
  /\ (In "begintime" (keys (filterRequest status beginTime endTime))
      <-> beginTime <> 0%Z)
  /\ (In "endtime" (keys (filterRequest status beginTime endTime))
      <-> endTime <> 0%Z)
  /\ (forall key value,
        In (key, value) (members (filterRequest status beginTime endTime)) ->
        (key = "status" /\ value = JInt status)
        \/ (key = "begintime" /\ value = JInt beginTime)
        \/ (key = "endtime" /\ value = JInt endTime))
  /\ (status = 0%Z -> beginTime = 0%Z -> endTime = 0%Z ->
      filterRequest status beginTime endTime = JObject []).
Proof.
  split.
  { intros token Htoken. unfold MerchantOrderGetByFilter, postJSON. unfold_go.
    rewrite Htoken. simpl.
    repeat (break_match; simpl in *); eexists; reflexivity. }
  split; [ rewrite filterRequest_keys; intuition discriminate | ].
  split; [ rewrite filterRequest_keys; intuition discriminate | ].
  split; [ rewrite filterRequest_keys; intuition discriminate | ].
  split.
  { intros key value. unfold filterRequest, members, omitempty.
    rewrite !in_app_iff.
    destruct (status =? 0)%Z, (beginTime =? 0)%Z, (endTime =? 0)%Z; simpl;
      intuition (try congruence);
      match goal with H : (_, _) = (_, _) |- _ => injection H as <- <- end;
      auto. }
  intros -> -> ->. reflexivity.
Qed.

(** C5 on the fake client: no filter at all, and a status alone. *)
Lemma C5_witness :
  (exists rest,
     snd (MerchantOrderGetByFilter Fake.env (Fake.client (jsonAnswer "{}"))
            0 0 0 [])
     = EvToken (Ok "TOKEN")
       :: EvPostJSON (merchantOrderGetByFilterURL Fake.env "TOKEN") (JObject [])
       :: rest)
  /\ filterRequest 0 0 0 = JObject []
  /\ In "status" (keys (filterRequest 2 0 0)).
Proof.
  destruct (C5_filter_request_omits_zero Fake.env
              (Fake.client (jsonAnswer "{}")) 0 0 0 [])
    as (Hcall & _ & _ & _ & _ & Hzero).
  destruct (C5_filter_request_omits_zero Fake.env
              (Fake.client (jsonAnswer "{}")) 2 0 0 [])
    as (_ & Hstatus & _).
  split; [ apply (Hcall "TOKEN"); reflexivity | ].
  split; [ apply Hzero; reflexivity | ].
  apply Hstatus. discriminate.
Defined.

(** With the helper that the spec describes, the request is the body of
    the POST. *)
Lemma filter_request_on_the_wire env c status beginTime endTime h :
  conforming env c ->
  forall url contentType body r,
    In (EvPost url contentType body r)
      (snd (MerchantOrderGetByFilter env c status beginTime endTime h)) ->
    body = json_Marshal env (filterRequest status beginTime endTime).
Proof.
  intros Hc url contentType body r.
  unfold MerchantOrderGetByFilter, postJSON. unfold_go.
  repeat first [ rewrite Hc; unfold postJSON_spec; unfold_go
               | break_match; simpl in * ].
  all: intros Hin; in_trace; try discriminate.
  all: injection Hin as; subst; reflexivity.
Qed.

(** The bytes that the fake transport receives without filter, and with a
    status and an end time. *)
Example filter_request_bodies :
  (forall url contentType body r,
     In (EvPost url contentType body r)
       (snd (MerchantOrderGetByFilter Fake.env (Fake.client (jsonAnswer "{}"))
               0 0 0 [])) ->
     body = Fake.text "{}")
  /\ (forall url contentType body r,
        In (EvPost url contentType body r)
          (snd (MerchantOrderGetByFilter Fake.env
                  (Fake.client (jsonAnswer "{}")) 2 0 1400000000 [])) ->
        body = Fake.text "{'status':2,'endtime':1400000000}").
Proof.
  split; intros url contentType body r Hin;
    apply (filter_request_on_the_wire Fake.env (Fake.client (jsonAnswer "{}"))
             _ _ _ _ (specClient_conforming Fake.env _ _ _)) in Hin;
    rewrite Hin; reflexivity.
Qed.

(* ================================================================== *)
(** ** News and video messages (C9) *)

Lemma gated_iff {R P} (out : option P * option error) (answer : R -> Prop)
    envelope (payload : R -> P) :
  gated out answer envelope (fun res => Some (payload res)) ->
  forall r,
    fst out = Some r
    <-> exists res, answer res /\ ErrCode (envelope res) = 0%Z
                    /\ r = payload res.
Proof.
  intros (Hresult & _ & Hzero) r. split.
  - intros Hr. destruct (Hresult r Hr) as (_ & res & Hans & Hcode & Hpay).
    exists res. injection Hpay as <-. auto.
  - intros (res & Hans & Hcode & ->). rewrite (Hzero res Hans Hcode).
    reflexivity.
Qed.

(** A token that cannot be had is the failure of the call, and nothing is
    sent. *)
Lemma rich_media_without_token env c h e :
  cl_Token c h = Fail e ->
  (forall n,
     MediaUploadNews env c (Some n) h = ((None, Some e), [EvToken (Fail e)]))
  /\ (forall v,
        MediaUploadVideo env c (Some v) h
        = ((None, Some e), [EvToken (Fail e)])).
Proof.
  intros Htoken. split; intros;
    unfold MediaUploadNews, MediaUploadVideo; unfold_go;
    rewrite Htoken; reflexivity.
Qed.

(** C9.  [MediaUploadNews] and [MediaUploadVideo] with a nil payload
    return the precondition error and do nothing else: no token fetch, no
    request.  With a payload, the token obtained, the JSON form of the
    payload goes to [postJSON] for the URL built from the token, and the
    embedded [UploadResponse] comes back exactly when an answer was decoded
    and its error code is 0. *)
Theorem C9_rich_media_upload env c h :
  MediaUploadNews env c None h = ((None, Some errNilNews), [])
  /\ MediaUploadVideo env c None h = ((None, Some errNilVideo), [])
  /\ (forall n token,
        cl_Token c h = Ok token ->
        exists rest,
          snd (MediaUploadNews env c (Some n) h)
          = EvToken (Ok token)
            :: EvPostJSON (mediaUploadNewsURL env token) (News_json env n)
            :: rest)
  /\ (forall v token,
        cl_Token c h = Ok token ->
        exists rest,
          snd (MediaUploadVideo env c (Some v) h)
          = EvToken (Ok token)
            :: EvPostJSON (mediaUploadVideoURL env token) (Video_json env v)
            :: rest)
  /\ (forall n r,
        fst (fst (MediaUploadNews env c (Some n) h)) = Some r
        <-> exists res,
              posted c h (mediaUploadNewsURL env) (News_json env n)
                (unmarshal env uploadResult_fields) uploadResult_zero res
              /\ ErrCode (up_Error res) = 0%Z
              /\ r = up_UploadResponse res)
  /\ (forall v r,
        fst (fst (MediaUploadVideo env c (Some v) h)) = Some r
        <-> exists res,
              posted c h (mediaUploadVideoURL env) (Video_json env v)
                (unmarshal env uploadResult_fields) uploadResult_zero res
              /\ ErrCode (up_Error res) = 0%Z
              /\ r = up_UploadResponse res).
Proof.
  split; [ reflexivity | ].
  split; [ reflexivity | ].
  split.
  { intros n token Htoken. unfold MediaUploadNews, postJSON. unfold_go.
    rewrite Htoken. simpl.
    repeat (break_match; simpl in *); eexists; reflexivity. }
  split.
  { intros v token Htoken. unfold MediaUploadVideo, postJSON. unfold_go.
    rewrite Htoken. simpl.
    repeat (break_match; simpl in *); eexists; reflexivity. }
  split.
  - intros n. apply gated_iff, MediaUploadNews_gated.
  - intros v. apply gated_iff, MediaUploadVideo_gated.
Qed.

(** C9 on the fake client: a news message that the platform accepts. *)
Lemma C9_witness :
  (exists rest,
     snd (MediaUploadNews Fake.env (Fake.client newsStored)
            (Some (JObject [("articles", JArray [])])) [])
     = EvToken (Ok "TOKEN")
       :: EvPostJSON (mediaUploadNewsURL Fake.env "TOKEN")
            (JObject [("articles", JArray [])])
       :: rest)
  /\ fst (fst (MediaUploadNews Fake.env (Fake.client newsStored)
                 (Some (JObject [("articles", JArray [])])) []))
     = Some (media.mkUploadResponse "news" "N1" 1400000000).
Proof.
  destruct (C9_rich_media_upload Fake.env (Fake.client newsStored) [])
    as (_ & _ & Hcall & _ & Hnews & _).
  split.
  - apply (Hcall (JObject [("articles", JArray [])]) "TOKEN"). reflexivity.
  - apply Hnews.
    exists (mkUploadResult (media.mkUploadResponse "news" "N1" 1400000000)
              (mkError 0 "")).
    split; [ exists "TOKEN"; split; reflexivity | ].
    split; reflexivity.
Defined.

(** The same message while the token provider is down. *)
Example news_without_token :
  MediaUploadNews Fake.env (Fake.clientNoToken newsStored)
    (Some (JObject [("articles", JArray [])])) []
  = ((None, Some Fake.TokenDown), [EvToken (Fail Fake.TokenDown)]).
Proof. reflexivity. Qed.

(** With the helper that the spec describes, the JSON form of the payload
    is the body of the POST, sent to the URL built from the token. *)
Lemma news_on_the_wire env c n h :
  conforming env c ->
  forall url contentType body r,
    In (EvPost url contentType body r)
      (snd (MediaUploadNews env c (Some n) h)) ->
    body = json_Marshal env (News_json env n)
    /\ exists token, cl_Token c h = Ok token
                     /\ url = mediaUploadNewsURL env token.
Proof.
  intros Hc url contentType body r.
  unfold MediaUploadNews, postJSON. unfold_go.
  repeat first [ rewrite Hc; unfold postJSON_spec; unfold_go
               | break_match; simpl in * ].
  all: intros Hin; in_trace; try discriminate.
  all: injection Hin as; subst; split; [ reflexivity | eexists; eauto ].
Qed.

Lemma video_on_the_wire env c v h :
  conforming env c ->
  forall url contentType body r,
    In (EvPost url contentType body r)
      (snd (MediaUploadVideo env c (Some v) h)) ->
    body = json_Marshal env (Video_json env v)
    /\ exists token, cl_Token c h = Ok token
                     /\ url = mediaUploadVideoURL env token.
Proof.
  intros Hc url contentType body r.
  unfold MediaUploadVideo, postJSON. unfold_go.
  repeat first [ rewrite Hc; unfold postJSON_spec; unfold_go
               | break_match; simpl in * ].
  all: intros Hin; in_trace; try discriminate.
  all: injection Hin as; subst; split; [ reflexivity | eexists; eauto ].
Qed.

(* ================================================================== *)
(** ** Further properties of the operations

    What the two files show beyond the statements above: how failures of
    the collaborators come back, what is sent, what is released, and how
    the file wrappers compose with the operations they wrap. *)

Ltac no_events :=
  intros ?e ?He; in_trace; subst; reflexivity.

(** *** Failures of the collaborators *)

(** A token that cannot be had is the error of the call, unchanged, on the
    eight operations that fetch one themselves; nothing else happens, and
    [MediaUpload] has not drawn a buffer yet. *)
Theorem token_failure_is_returned env c h e :
  cl_Token c h = Fail e ->
  (forall mediaType filename rd,
     In mediaType mediaTypes -> filename <> "" ->
     MediaUpload env c mediaType filename (Some rd) h
     = ((None, Some e), [EvToken (Fail e)]))
  /\ (forall mediaId dst,
        mediaId <> "" ->
        MediaDownload env c mediaId (Some dst) h
        = ((Some e, Some dst), [EvToken (Fail e)]))
  /\ (forall n,
        MediaUploadNews env c (Some n) h = ((None, Some e), [EvToken (Fail e)]))
  /\ (forall v,
        MediaUploadVideo env c (Some v) h
        = ((None, Some e), [EvToken (Fail e)]))
  /\ (forall orderId,
        MerchantOrderGetById env c orderId h
        = ((None, Some e), [EvToken (Fail e)]))
  /\ (forall status beginTime endTime,
        MerchantOrderGetByFilter env c status beginTime endTime h
        = ((None, Some e), [EvToken (Fail e)]))
  /\ (forall orderId company trackNo,
        MerchantOrderSetDelivery env c orderId company trackNo h
        = (Some e, [EvToken (Fail e)]))
  /\ (forall orderId,
        MerchantOrderClose env c orderId h = (Some e, [EvToken (Fail e)])).
Proof.
  intros Htoken.
  split.
  { intros mediaType filename rd Htype Hname.
    apply isMediaType_true in Htype. apply String.eqb_neq in Hname.
    unfold MediaUpload. rewrite Htype, Hname. unfold_go. simpl.
    rewrite Htoken. reflexivity. }
  split.
  { intros mediaId dst Hid. apply String.eqb_neq in Hid.
    unfold MediaDownload. rewrite Hid. unfold_go. simpl. rewrite Htoken.
    reflexivity. }
  repeat split; intros; unfold_ops; unfold_go; simpl; rewrite Htoken;
    reflexivity.
Qed.

Lemma token_failure_is_returned_witness :
  MediaUpload Fake.env (Fake.clientNoToken accepted) "image" "a.jpg"
    (Some jpeg) []
  = ((None, Some Fake.TokenDown), [EvToken (Fail Fake.TokenDown)])
  /\ MerchantOrderClose Fake.env (Fake.clientNoToken accepted) "7" []
     = (Some Fake.TokenDown, [EvToken (Fail Fake.TokenDown)]).
Proof.
  destruct (@token_failure_is_returned Fake.env (Fake.clientNoToken accepted)
              [] Fake.TokenDown eq_refl)
    as (Hupload & _ & _ & _ & _ & _ & _ & Hclose).
  split.
  - apply Hupload; [ simpl; tauto | discriminate ].
  - apply Hclose.
Defined.

(** A request that the transport does not answer gives its error to the
    caller of [MediaUpload] and [MediaDownload], unchanged: nothing is
    decoded, there is no body to close, and the sink is as it was. *)
Theorem transport_failure_is_returned env c h :
  (forall mediaType filename mediaReader url contentType body e,
     In (EvPost url contentType body (Fail e))
       (snd (MediaUpload env c mediaType filename mediaReader h)) ->
     fst (MediaUpload env c mediaType filename mediaReader h) = (None, Some e)
     /\ undecoded (snd (MediaUpload env c mediaType filename mediaReader h))
     /\ count isBodyClose
          (snd (MediaUpload env c mediaType filename mediaReader h)) = O)
  /\ (forall mediaId writer url e,
        In (EvGet url (Fail e)) (snd (MediaDownload env c mediaId writer h)) ->
        fst (MediaDownload env c mediaId writer h) = (Some e, writer)
        /\ undecoded (snd (MediaDownload env c mediaId writer h))
        /\ count isBodyClose (snd (MediaDownload env c mediaId writer h)) = O).
Proof.
  split.
  - intros mediaType filename mediaReader url contentType body e.
    unfold_ops. run; intros Hin; in_trace; try discriminate.
    all: injection Hin as; subst.
    all: split; [ reflexivity | split; [ no_events | reflexivity ] ].
  - intros mediaId writer url e.
    unfold_ops. run; intros Hin; in_trace; try discriminate.
    all: injection Hin as; subst.
    all: split; [ reflexivity | split; [ no_events | reflexivity ] ].
Qed.

Lemma transport_failure_is_returned_witness :
  fst (MediaDownload Fake.env Fake.clientNoNet "id" (Some (bufferWriter [])) [])
  = (Some Fake.NetDown, Some (bufferWriter []))
  /\ undecoded
       (snd (MediaDownload Fake.env Fake.clientNoNet "id"
               (Some (bufferWriter [])) []))
  /\ count isBodyClose
       (snd (MediaDownload Fake.env Fake.clientNoNet "id"
               (Some (bufferWriter [])) [])) = O.
Proof.
  destruct (transport_failure_is_returned Fake.env Fake.clientNoNet [])
    as [_ Hget].
  apply (Hget "id" (Some (bufferWriter []))
           (mediaDownloadURL Fake.env "TOKEN" "id") Fake.NetDown).
  right. left. reflexivity.
Defined.

(** An answer with status 200 whose body does not decode into the struct
    of the call gives the error of the decoder to the caller, unchanged:
    [MediaUpload] returns no result, [MediaDownload] leaves the sink as it
    was. *)
Theorem decode_failure_is_returned env c h :
  (forall mediaType filename mediaReader url contentType body resp e,
     In (EvPost url contentType body (Ok resp))
       (snd (MediaUpload env c mediaType filename mediaReader h)) ->
     StatusCode resp = http_StatusOK ->
     uploadDecodeError env mediaType resp = Some e ->
     fst (MediaUpload env c mediaType filename mediaReader h) = (None, Some e))
  /\ (forall mediaId dst url resp e,
        In (EvGet url (Ok resp))
          (snd (MediaDownload env c mediaId (Some dst) h)) ->
        StatusCode resp = http_StatusOK ->
        isErrorDocument env resp = true ->
        decodeBody env Error_fields Error_zero resp = Fail e ->
        fst (MediaDownload env c mediaId (Some dst) h) = (Some e, Some dst)).
Proof.
  split.
  - intros mediaType filename mediaReader url contentType body resp e.
    unfold_ops. run; intros Hin Hok Hdec; in_trace; try discriminate.
    all: injection Hin as; subst.
    all: try (rewrite Hok in *; discriminate).
    all: unfold uploadDecodeError, decodeBody in Hdec.
    all: repeat match goal with
                | H : json_parse _ _ = _ |- _ => rewrite H in Hdec
                | H : unmarshal _ _ _ _ = _ |- _ => rewrite H in Hdec
                | H : (_ =? _)%string = _ |- _ => rewrite H in Hdec
                end.
    all: first [ discriminate | injection Hdec as ->; reflexivity ].
  - intros mediaId dst url resp e Hin Hok Hdoc Hdec.
    rewrite (MediaDownload_answered _ _ _ _ _ _ _ Hin Hok).
    unfold downloaded, decodeBody in *. rewrite Hdoc.
    destruct (json_parse env (Body resp)) as [v | err].
    + now rewrite Hdec.
    + now injection Hdec as ->.
Qed.

Lemma decode_failure_is_returned_witness :
  fst (MediaUpload Fake.env (Fake.client truncatedAnswer) "thumb" "a.jpg"
         (Some jpeg) [])
  = (None, Some Fake.SyntaxError)
  /\ fst (MediaDownload Fake.env (Fake.client truncatedAnswer) "id"
            (Some (bufferWriter [])) [])
     = (Some Fake.SyntaxError, Some (bufferWriter [])).
Proof.
  destruct (decode_failure_is_returned Fake.env (Fake.client truncatedAnswer)
              [])
    as [Hupload Hdownload].
  split.
  - eapply (Hupload "thumb" "a.jpg" (Some jpeg) _ _ _ truncatedAnswer).
    + right. right. left. reflexivity.
    + reflexivity.
    + reflexivity.
  - apply (Hdownload "id" (bufferWriter [])
             (mediaDownloadURL Fake.env "TOKEN" "id") truncatedAnswer).
    + right. left. reflexivity.
    + reflexivity.
    + reflexivity.
    + reflexivity.
Defined.

Ltac posted_open :=
  unfold posted, postFailed; unfold_ops; unfold postJSON; unfold_go;
  repeat (break_match; simpl in *); code_cases.

Ltac post_failed :=
  intros ?e (?tok & ?res & ?Htok & ?Hpost);
  first
    [ discriminate
    | injection Htok as; subst;
      match goal with
      | H : cl_postJSON _ _ _ _ _ _ = _ |- _ => rewrite H in Hpost
      end;
      simpl in Hpost;
      first [ discriminate | injection Hpost as; subst; reflexivity ] ].

(** The error that [postJSON] hands back is the error of the call,
    unchanged and without result, on the six operations that post through
    it. *)
Theorem postJSON_failure_is_returned env c h :
  (forall n e,
     postFailed c h (mediaUploadNewsURL env) (News_json env n)
       (unmarshal env uploadResult_fields) uploadResult_zero e ->
     fst (MediaUploadNews env c (Some n) h) = (None, Some e))
  /\ (forall v e,
        postFailed c h (mediaUploadVideoURL env) (Video_json env v)
          (unmarshal env uploadResult_fields) uploadResult_zero e ->
        fst (MediaUploadVideo env c (Some v) h) = (None, Some e))
  /\ (forall orderId e,
        postFailed c h (merchantOrderGetByIdURL env) (orderIdRequest orderId)
          (unmarshal env (orderResult_fields (Order_unmarshal env)))
          (mkOrderResult Error_zero (Order_zero env)) e ->
        fst (MerchantOrderGetById env c orderId h) = (None, Some e))
  /\ (forall status beginTime endTime e,
        postFailed c h (merchantOrderGetByFilterURL env)
          (filterRequest status beginTime endTime)
          (unmarshal env (orderListResult_fields (Order_unmarshal env)
                            (Order_zero env)))
          (mkOrderListResult Error_zero (Some [])) e ->
        fst (MerchantOrderGetByFilter env c status beginTime endTime h)
        = (None, Some e))
  /\ (forall orderId company trackNo e,
        postFailed c h (merchantOrderSetDeliveryURL env)
          (deliveryRequest orderId company trackNo)
          (unmarshal env Error_fields) Error_zero e ->
        fst (MerchantOrderSetDelivery env c orderId company trackNo h)
        = Some e)
  /\ (forall orderId e,
        postFailed c h (merchantOrderCloseURL env) (orderIdRequest orderId)
          (unmarshal env Error_fields) Error_zero e ->
        fst (MerchantOrderClose env c orderId h) = Some e).
Proof.
  repeat apply conj; intros until e; revert e; posted_open.
  all: post_failed.
Qed.

Lemma postJSON_failure_is_returned_witness :
  fst (MerchantOrderGetById Fake.env (Fake.client answer500) "7" [])
  = (None, Some (errorString "http.Status: 500 Internal Server Error")).
Proof.
  destruct (postJSON_failure_is_returned Fake.env (Fake.client answer500) [])
    as (_ & _ & Hbyid & _).
  apply Hbyid.
  exists "TOKEN", (mkOrderResult Error_zero JNull). split; reflexivity.
Defined.

(** A reader that fails stops [MediaUpload] before anything is sent: no
    POST, nothing decoded, no result; when the call got as far as the
    reader, its error is the error of the call and the buffer is back in
    the pool. *)
Theorem failing_reader_stops_the_upload env c mediaType filename rd h e :
  rd_err rd = Some e ->
  count isPost (snd (MediaUpload env c mediaType filename (Some rd) h)) = O
  /\ undecoded (snd (MediaUpload env c mediaType filename (Some rd) h))
  /\ fst (fst (MediaUpload env c mediaType filename (Some rd) h)) = None
  /\ snd (fst (MediaUpload env c mediaType filename (Some rd) h)) <> None
  /\ (forall token,
        In mediaType mediaTypes -> filename <> "" ->
        cl_Token c h = Ok token ->
        (forall boundary, exists header,
           multipart_CreateFormFile env boundary "file" filename []
           = Ok header) ->
        MediaUpload env c mediaType filename (Some rd) h
        = ((None, Some e), [EvToken (Ok token); EvGetBuffer; EvPutBuffer])).
Proof.
  intros Hrd. unfold_ops. rewrite Hrd. run.
  all: split; [ reflexivity | ].
  all: split; [ no_events | ].
  all: split; [ reflexivity | ].
  all: split; [ discriminate | ].
  all: intros token Htype Hname Htoken Hheader.
  all: try (apply isMediaType_true in Htype; rewrite Htype in *; discriminate).
  all: try (apply String.eqb_neq in Hname; congruence).
  all: try discriminate.
  all: try (injection Htoken as <-; reflexivity).
  all: match goal with
       | H : multipart_CreateFormFile _ ?b _ _ _ = Fail _ |- _ =>
           destruct (Hheader b) as [header Hok]; congruence
       end.
Qed.

Lemma failing_reader_stops_the_upload_witness :
  MediaUpload Fake.env (Fake.client accepted) "image" "a.jpg"
    (Some brokenReader) []
  = ((None, Some Fake.NetDown),
     [EvToken (Ok "TOKEN"); EvGetBuffer; EvPutBuffer]).
Proof.
  destruct (@failing_reader_stops_the_upload Fake.env (Fake.client accepted)
              "image" "a.jpg" brokenReader [] Fake.NetDown eq_refl)
    as (_ & _ & _ & _ & Hreader).
  apply (Hreader "TOKEN").
  - simpl. tauto.
  - discriminate.
  - reflexivity.
  - intros boundary. eexists. reflexivity.
Defined.

(** The form writer's errors are the error of [MediaUpload], unchanged:
    when the part for the file cannot be created, or when the closing
    boundary cannot be written after the reader was copied, the call
    returns that error without result, sends nothing and puts the buffer
    back. *)
Theorem form_failure_is_returned env c mediaType filename rd h token e :
  In mediaType mediaTypes -> filename <> "" ->
  cl_Token c h = Ok token ->
  let boundary :=
    multipart_boundary env (h ++ [EvToken (Ok token); EvGetBuffer]) in
  (multipart_CreateFormFile env boundary "file" filename [] = Fail e ->
   MediaUpload env c mediaType filename (Some rd) h
   = ((None, Some e), [EvToken (Ok token); EvGetBuffer; EvPutBuffer]))
  /\ (forall header,
        multipart_CreateFormFile env boundary "file" filename [] = Ok header ->
        rd_err rd = None ->
        multipart_Close env boundary (header ++ concat (rd_chunks rd))
        = Fail e ->
        MediaUpload env c mediaType filename (Some rd) h
        = ((None, Some e), [EvToken (Ok token); EvGetBuffer; EvPutBuffer])).
Proof.
  intros Htype Hname Htoken boundary.
  apply isMediaType_true in Htype. apply String.eqb_neq in Hname.
  unfold MediaUpload, copyToPart. rewrite Htype, Hname. unfold_go. simpl.
  rewrite Htoken. simpl. rewrite <- !app_assoc. simpl. fold boundary.
  split.
  - intros Hcreate. rewrite Hcreate. reflexivity.
  - intros header Hcreate Hrd Hclose. rewrite Hcreate, Hrd. simpl.
    rewrite Hclose. reflexivity.
Qed.

Lemma form_failure_is_returned_witness :
  MediaUpload shortBufferEnv (Fake.client accepted) "image" "a.jpg"
    (Some jpeg) []
  = ((None, Some ShortBuffer),
     [EvToken (Ok "TOKEN"); EvGetBuffer; EvPutBuffer]).
Proof.
  assert (Htype : In "image" mediaTypes) by (simpl; tauto).
  assert (Hname : "a.jpg" <> "") by discriminate.
  destruct (@form_failure_is_returned shortBufferEnv (Fake.client accepted)
              "image" "a.jpg" jpeg [] "TOKEN" ShortBuffer Htype Hname eq_refl)
    as [_ Hclose].
  apply (Hclose (list_byte_of_string (Fake.partHeader "XYZ" "file" "a.jpg")));
    reflexivity.
Defined.

(** *** What is sent *)

(** The one POST of [MediaUpload] carries the form of the file: the part
    header for the field [file] with the filename, then everything the
    reader delivered, then the closing boundary; its content type names the
    boundary of that form, and its URL is built from the token and the
    media type. *)
Theorem MediaUpload_posts_the_form env c mediaType filename mediaReader h
    url contentType body r :
  In (EvPost url contentType body r)
    (snd (MediaUpload env c mediaType filename mediaReader h)) ->
  exists token boundary rd header,
    In mediaType mediaTypes /\ filename <> "" /\ mediaReader = Some rd
    /\ cl_Token c h = Ok token
    /\ rd_err rd = None
    /\ multipart_CreateFormFile env boundary "file" filename [] = Ok header
    /\ multipart_Close env boundary (header ++ concat (rd_chunks rd)) = Ok body
    /\ contentType = multipart_FormDataContentType env boundary
    /\ url = mediaUploadURL env token mediaType
    /\ count isPost (snd (MediaUpload env c mediaType filename mediaReader h))
       = 1%nat.
Proof.
  unfold_ops. run; intros Hin; in_trace; try discriminate.
  all: injection Hin as; subst.
  all: do 4 eexists.
  all: split; [ apply isMediaType_true;
                match goal with
                | H : negb (isMediaType _) = false |- _ =>
                    apply negb_false_iff in H; exact H
                end | ].
  all: split; [ apply String.eqb_neq; assumption | ].
  all: split; [ reflexivity | ].
  all: split; [ reflexivity | ].
  all: split; [ assumption | ].
  all: split; [ eassumption | ].
  all: split; [ eassumption | ].
  all: split; [ reflexivity | ].
  all: split; reflexivity.
Qed.

Lemma MediaUpload_posts_the_form_witness :
  exists token boundary rd header,
    In "image" mediaTypes /\ "a.jpg" <> "" /\ Some jpeg = Some rd
    /\ cl_Token (Fake.client accepted) [] = Ok token
    /\ rd_err rd = None
    /\ multipart_CreateFormFile Fake.env boundary "file" "a.jpg" [] = Ok header
    /\ multipart_Close Fake.env boundary (header ++ concat (rd_chunks rd))
       = Ok formBody
    /\ "multipart/form-data; boundary=XYZ"
       = multipart_FormDataContentType Fake.env boundary
    /\ mediaUploadURL Fake.env "TOKEN" "image"
       = mediaUploadURL Fake.env token "image"
    /\ count isPost
         (snd (MediaUpload Fake.env (Fake.client accepted) "image" "a.jpg"
                 (Some jpeg) []))
       = 1%nat.
Proof.
  apply (@MediaUpload_posts_the_form Fake.env (Fake.client accepted) "image"
           "a.jpg" (Some jpeg) [] (mediaUploadURL Fake.env "TOKEN" "image")
           "multipart/form-data; boundary=XYZ" formBody (Ok accepted)).
  right. right. left. reflexivity.
Defined.

(** The requests of [MerchantOrderGetById], [MerchantOrderSetDelivery] and
    [MerchantOrderClose] carry every key with its argument, the empty
    string included: none of their fields is left out. *)
Theorem order_requests env c h token :
  cl_Token c h = Ok token ->
  (forall orderId, exists rest,
     snd (MerchantOrderGetById env c orderId h)
     = EvToken (Ok token)
       :: EvPostJSON (merchantOrderGetByIdURL env token)
            (JObject [("order_id", JString orderId)])
       :: rest)
  /\ (forall orderId company trackNo, exists rest,
        snd (MerchantOrderSetDelivery env c orderId company trackNo h)
        = EvToken (Ok token)
          :: EvPostJSON (merchantOrderSetDeliveryURL env token)
               (JObject [("order_id", JString orderId);
                         ("delivery_company", JString company);
                         ("delivery_track_no", JString trackNo)])
          :: rest)
  /\ (forall orderId, exists rest,
        snd (MerchantOrderClose env c orderId h)
        = EvToken (Ok token)
          :: EvPostJSON (merchantOrderCloseURL env token)
               (JObject [("order_id", JString orderId)])
          :: rest).
Proof.
  intros Htoken. repeat apply conj; intros; unfold_ops; unfold postJSON;
    unfold_go; simpl; rewrite Htoken; simpl;
    repeat (break_match; simpl in *); eexists; reflexivity.
Qed.

Lemma order_requests_witness :
  exists rest,
    snd (MerchantOrderSetDelivery Fake.env (Fake.client accepted) "7" "" "" [])
    = EvToken (Ok "TOKEN")
      :: EvPostJSON (merchantOrderSetDeliveryURL Fake.env "TOKEN")
           (JObject [("order_id", JString "7");
                     ("delivery_company", JString "");
                     ("delivery_track_no", JString "")])
      :: rest.
Proof.
  destruct (@order_requests Fake.env (Fake.client accepted) [] "TOKEN" eq_refl)
    as (_ & Hdelivery & _).
  apply Hdelivery.
Defined.

(** [MediaDownload] sends at most one request, a GET for the URL built
    from the token and the media id, and only after both arguments passed
    the checks; it never posts and never draws a buffer. *)
Theorem MediaDownload_requests env c mediaId writer h :
  (forall url r,
     In (EvGet url r) (snd (MediaDownload env c mediaId writer h)) ->
     exists token,
       cl_Token c h = Ok token /\ url = mediaDownloadURL env token mediaId
       /\ mediaId <> "" /\ writer <> None)
  /\ (count isGetRequest (snd (MediaDownload env c mediaId writer h)) <= 1)%nat
  /\ count isPost (snd (MediaDownload env c mediaId writer h)) = O
  /\ drawn (snd (MediaDownload env c mediaId writer h)) = O.
Proof.
  unfold MediaDownload. run.
  all: split; [ | cbn; repeat split; auto ].
  all: intros url r Hin; in_trace; try discriminate.
  all: injection Hin as; subst.
  all: eexists; split; [ reflexivity | ].
  all: split; [ reflexivity | ].
  all: split; [ apply String.eqb_neq; assumption | discriminate ].
Qed.

Lemma MediaDownload_requests_witness :
  exists token,
    cl_Token (Fake.client binAnswer) [] = Ok token
    /\ mediaDownloadURL Fake.env "TOKEN" "id"
       = mediaDownloadURL Fake.env token "id"
    /\ "id" <> "" /\ Some (bufferWriter []) <> None.
Proof.
  destruct (MediaDownload_requests Fake.env (Fake.client binAnswer) "id"
              (Some (bufferWriter [])) [])
    as [Hget _].
  apply (Hget (mediaDownloadURL Fake.env "TOKEN" "id") (Ok binAnswer)).
  right. left. reflexivity.
Defined.

(** *** What is released *)

(** [MediaUpload] and [MediaDownload] close the body of every response
    they receive, once, and receive at most one; a call that got no
    response closes nothing.  In [MediaUpload] the body is closed just
    before the buffer goes back to the pool; in [MediaDownload] closing it
    is the last thing the call does. *)
Theorem response_body_closed_once env c h :
  (forall mediaType filename mediaReader,
     count isBodyClose (snd (MediaUpload env c mediaType filename mediaReader h))
     = count isAnswer (snd (MediaUpload env c mediaType filename mediaReader h))
     /\ (count isAnswer
           (snd (MediaUpload env c mediaType filename mediaReader h)) <= 1)%nat
     /\ (In EvBodyClose
           (snd (MediaUpload env c mediaType filename mediaReader h)) ->
         last (removelast
                 (snd (MediaUpload env c mediaType filename mediaReader h)))
           EvPutBuffer
         = EvBodyClose))
  /\ (forall mediaId writer,
        count isBodyClose (snd (MediaDownload env c mediaId writer h))
        = count isAnswer (snd (MediaDownload env c mediaId writer h))
        /\ (count isAnswer (snd (MediaDownload env c mediaId writer h)) <= 1)%nat
        /\ (In EvBodyClose (snd (MediaDownload env c mediaId writer h)) ->
            last (snd (MediaDownload env c mediaId writer h)) EvDecode
            = EvBodyClose)).
Proof.
  split.
  - intros. unfold_ops. run.
    all: cbn; repeat split; auto; intros; in_trace; try discriminate.
  - intros. unfold_ops. run.
    all: cbn; repeat split; auto; intros; in_trace; try discriminate.
Qed.

Lemma response_body_closed_once_witness :
  last (removelast
          (snd (MediaUpload Fake.env (Fake.client answer500) "image" "a.jpg"
                  (Some jpeg) [])))
    EvPutBuffer
  = EvBodyClose.
Proof.
  destruct (response_body_closed_once Fake.env (Fake.client answer500) [])
    as [Hupload _].
  destruct (Hupload "image" "a.jpg" (Some jpeg)) as (_ & _ & Hlast).
  apply Hlast. right. right. right. left. reflexivity.
Defined.

(** [MediaDownload] leaves the sink as it was on every path but one: the
    copy of the body of an answer with status 200 that is not an error
    document, where the sink is what the copy made of it. *)
Theorem sink_untouched_outside_the_copy env c mediaId writer h :
  snd (fst (MediaDownload env c mediaId writer h)) = writer
  \/ exists dst url resp,
       writer = Some dst
       /\ In (EvGet url (Ok resp)) (snd (MediaDownload env c mediaId writer h))
       /\ StatusCode resp = http_StatusOK
       /\ isErrorDocument env resp = false
       /\ undecoded (snd (MediaDownload env c mediaId writer h))
       /\ fst (MediaDownload env c mediaId writer h)
          = (fst (io_Copy dst (Body resp)),
             Some (snd (io_Copy dst (Body resp)))).
Proof.
  unfold MediaDownload. run.
  all: try (left; reflexivity).
  right. do 3 eexists.
  split; [ reflexivity | ].
  split; [ right; left; reflexivity | ].
  split.
  { match goal with
    | H : negb (StatusCode _ =? _)%Z = false |- _ =>
        apply negb_false_iff, Z.eqb_eq in H; exact H
    end. }
  split.
  { unfold isErrorDocument, declaredType.
    match goal with
    | H : negb _ && negb _ = true |- _ =>
        rewrite <- negb_orb in H; apply negb_true_iff in H; exact H
    end. }
  split; [ no_events | ].
  match goal with
  | H : io_Copy _ _ = _ |- _ => rewrite H
  end.
  reflexivity.
Qed.

(** *** Results *)

Section IntFieldLemmas.
Variable EqualFold : string -> string -> bool.
Variable R : Type.


End IntFieldLemmas.








(** [MediaUpload], [MediaUploadFromFile], [MediaUploadNews],
    [MediaUploadVideo] and [MerchantOrderGetById] return a result or an
    error, never both and never neither: a nil error means a result is
    there.  [MerchantOrderGetByFilter] never returns both; its list can be
    nil without an error. *)
Theorem result_or_error_never_both env c h :
  (forall mediaType filename mediaReader,
     fst (fst (MediaUpload env c mediaType filename mediaReader h)) = None
     <-> snd (fst (MediaUpload env c mediaType filename mediaReader h)) <> None)
  /\ (forall mediaType filePath,
        fst (fst (MediaUploadFromFile env c mediaType filePath h)) = None
        <-> snd (fst (MediaUploadFromFile env c mediaType filePath h)) <> None)
  /\ (forall news,
        fst (fst (MediaUploadNews env c news h)) = None
        <-> snd (fst (MediaUploadNews env c news h)) <> None)
  /\ (forall video,
        fst (fst (MediaUploadVideo env c video h)) = None
        <-> snd (fst (MediaUploadVideo env c video h)) <> None)
  /\ (forall orderId,
        fst (fst (MerchantOrderGetById env c orderId h)) = None
        <-> snd (fst (MerchantOrderGetById env c orderId h)) <> None)
  /\ (forall status beginTime endTime,
        fst (fst (MerchantOrderGetByFilter env c status beginTime endTime h))
        <> None ->
        snd (fst (MerchantOrderGetByFilter env c status beginTime endTime h))
        = None).
Proof.
  repeat apply conj; intros; unfold_ops; unfold postJSON; run.
  all: simpl; try (split; [ intros; discriminate | congruence ]).
  all: try (split; [ discriminate | congruence ]).
  all: try congruence.
  all: try reflexivity.
Qed.

Lemma result_or_error_never_both_witness :
  snd (fst (MerchantOrderGetByFilter Fake.env (Fake.client orderList) 0 0 0 []))
  = None.
Proof.
  destruct (result_or_error_never_both Fake.env (Fake.client orderList) [])
    as (_ & _ & _ & _ & _ & Hfilter).
  apply Hfilter. discriminate.
Defined.

(** An order list that the platform sends as [null] comes back as a nil
    list with a nil error. *)
Example order_list_null :
  fst (MerchantOrderGetByFilter Fake.env
         (Fake.client (jsonAnswer "{'errcode':0,'order_list':null}")) 0 0 0 [])
  = (None, None).
Proof. reflexivity. Qed.

Ltac posted_answer :=
  intros ?res (?tok & ?Htok & ?Hpost) ?Hcode;
  first
    [ discriminate
    | injection Htok as; subst;
      match goal with
      | H : cl_postJSON _ _ _ _ _ _ = _ |- _ => rewrite H in Hpost
      end;
      simpl in Hpost;
      first
        [ discriminate
        | injection Hpost as; subst; first [ contradiction | reflexivity ] ] ].

Ltac posted_none :=
  split;
  [ intros ?Hnone;
    first
      [ discriminate
      | eexists; split;
        [ eexists; split; [ reflexivity | ];
          match goal with
          | H : cl_postJSON _ _ _ _ _ _ = _ |- _ => rewrite H
          end;
          reflexivity
        | assumption ] ]
  | intros (?res & (?tok & ?Htok & ?Hpost) & ?Hcode);
    first
      [ discriminate
      | injection Htok as; subst;
        match goal with
        | H : cl_postJSON _ _ _ _ _ _ = _ |- _ => rewrite H in Hpost
        end;
        simpl in Hpost;
        first
          [ discriminate
          | injection Hpost as; subst;
            first [ contradiction | reflexivity ] ] ] ].

(** [MerchantOrderSetDelivery] and [MerchantOrderClose] return nil exactly
    when [postJSON] decoded an answer whose error code is 0; an answer with
    another code comes back as the error, code and message as decoded. *)
Theorem delivery_and_close_outcome env c h :
  (forall orderId company trackNo,
     (fst (MerchantOrderSetDelivery env c orderId company trackNo h) = None
      <-> exists res,
            posted c h (merchantOrderSetDeliveryURL env)
              (deliveryRequest orderId company trackNo)
              (unmarshal env Error_fields) Error_zero res
            /\ ErrCode res = 0%Z)
     /\ (forall res,
           posted c h (merchantOrderSetDeliveryURL env)
             (deliveryRequest orderId company trackNo)
             (unmarshal env Error_fields) Error_zero res ->
           ErrCode res <> 0%Z ->
           fst (MerchantOrderSetDelivery env c orderId company trackNo h)
           = Some (errorAPI res)))
  /\ (forall orderId,
        (fst (MerchantOrderClose env c orderId h) = None
         <-> exists res,
               posted c h (merchantOrderCloseURL env) (orderIdRequest orderId)
                 (unmarshal env Error_fields) Error_zero res
               /\ ErrCode res = 0%Z)
        /\ (forall res,
              posted c h (merchantOrderCloseURL env) (orderIdRequest orderId)
                (unmarshal env Error_fields) Error_zero res ->
              ErrCode res <> 0%Z ->
              fst (MerchantOrderClose env c orderId h) = Some (errorAPI res))).
Proof.
  split.
  - intros. posted_open.
    all: split; [ posted_none | posted_answer ].
  - intros. posted_open.
    all: split; [ posted_none | posted_answer ].
Qed.

Lemma delivery_and_close_outcome_witness :
  fst (MerchantOrderClose Fake.env (Fake.client accepted) "7" []) = None
  /\ fst (MerchantOrderSetDelivery Fake.env (Fake.client remoteError) "7"
            "059Yunda" "1900659372473" [])
     = Some (errorAPI (mkError 40004 "invalid media type")).
Proof.
  destruct (delivery_and_close_outcome Fake.env (Fake.client accepted) [])
    as [_ Hclose].
  destruct (delivery_and_close_outcome Fake.env (Fake.client remoteError) [])
    as [Hdelivery _].
  split.
  - apply (Hclose "7"). exists (mkError 0 "ok").
    split; [ exists "TOKEN"; split; reflexivity | reflexivity ].
  - apply (Hdelivery "7" "059Yunda" "1900659372473").
    + exists "TOKEN". split; reflexivity.
    + discriminate.
Defined.

(** *** The file wrappers *)

(** [MediaUploadFromFile] returns the error of [os.Open] and does nothing
    else when the file does not open.  When it opens, the call is
    [MediaUpload] with the base name of the path and the file as reader,
    between the opening and the closing of the file: same result, same
    error, and the file is closed last on every path. *)
Theorem MediaUploadFromFile_composes env c mediaType filePath h :
  (forall e,
     os_Open env filePath h = Fail e ->
     MediaUploadFromFile env c mediaType filePath h
     = ((None, Some e), [EvOpen filePath false]))
  /\ (forall file,
        os_Open env filePath h = Ok file ->
        MediaUploadFromFile env c mediaType filePath h
        = (fst (MediaUpload env c mediaType (filepath_Base env filePath)
                  (Some file) (h ++ [EvOpen filePath true])),
           EvOpen filePath true
           :: snd (MediaUpload env c mediaType (filepath_Base env filePath)
                     (Some file) (h ++ [EvOpen filePath true]))
           ++ [EvFileClose filePath []])).
Proof.
  split.
  - intros e Hopen. unfold MediaUploadFromFile. unfold_go. simpl.
    rewrite Hopen. reflexivity.
  - intros file Hopen. unfold MediaUploadFromFile. unfold_go. simpl.
    rewrite Hopen. simpl.
    destruct (MediaUpload env c mediaType (filepath_Base env filePath)
                (Some file) (h ++ [EvOpen filePath true])) as [out evs].
    simpl. rewrite ?app_nil_r. reflexivity.
Qed.

Lemma MediaUploadFromFile_composes_witness :
  MediaUploadFromFile Fake.env (Fake.client accepted) "image" "/tmp/none" []
  = ((None, Some Fake.NotExist), [EvOpen "/tmp/none" false])
  /\ MediaUploadFromFile Fake.env (Fake.client accepted) "image" "in.jpg" []
     = (fst (MediaUpload Fake.env (Fake.client accepted) "image"
               (filepath_Base Fake.env "in.jpg") (Some jpeg)
               ([] ++ [EvOpen "in.jpg" true])),
        EvOpen "in.jpg" true
        :: snd (MediaUpload Fake.env (Fake.client accepted) "image"
                  (filepath_Base Fake.env "in.jpg") (Some jpeg)
                  ([] ++ [EvOpen "in.jpg" true]))
        ++ [EvFileClose "in.jpg" []]).
Proof.
  split.
  - destruct (MediaUploadFromFile_composes Fake.env (Fake.client accepted)
                "image" "/tmp/none" [])
      as [Hfail _].
    apply Hfail. reflexivity.
  - destruct (MediaUploadFromFile_composes Fake.env (Fake.client accepted)
                "image" "in.jpg" [])
      as [_ Hopen].
    apply Hopen. reflexivity.
Defined.

(** [MediaDownloadToFile] returns the error of [os.Create] and does
    nothing else when the file cannot be created.  When it can, the call
    is [MediaDownload] into the file, between the creation and the closing
    of the file: same error, and the file is closed last on every path,
    holding what the download left in it. *)
Theorem MediaDownloadToFile_composes env c mediaId filePath h :
  (forall e,
     os_Create env filePath h = Fail e ->
     MediaDownloadToFile env c mediaId filePath h
     = (Some e, [EvCreate filePath false]))
  /\ (forall file,
        os_Create env filePath h = Ok file ->
        exists left,
          snd (fst (MediaDownload env c mediaId (Some file)
                      (h ++ [EvCreate filePath true]))) = Some left
          /\ MediaDownloadToFile env c mediaId filePath h
             = (fst (fst (MediaDownload env c mediaId (Some file)
                            (h ++ [EvCreate filePath true]))),
                EvCreate filePath true
                :: snd (MediaDownload env c mediaId (Some file)
                          (h ++ [EvCreate filePath true]))
                ++ [EvFileClose filePath (wr_sunk left)])).
Proof.
  split.
  - intros e Hcreate. unfold MediaDownloadToFile. unfold_go. simpl.
    rewrite Hcreate. reflexivity.
  - intros file Hcreate. unfold MediaDownloadToFile. unfold_go. simpl.
    rewrite Hcreate. simpl.
    assert (Hsome : exists left,
               snd (fst (MediaDownload env c mediaId (Some file)
                           (h ++ [EvCreate filePath true]))) = Some left).
    { unfold MediaDownload. run; eexists; reflexivity. }
    destruct Hsome as [left Hleft]. exists left. split; [ exact Hleft | ].
    destruct (MediaDownload env c mediaId (Some file)
                (h ++ [EvCreate filePath true])) as [[err w] evs].
    simpl in *. subst w. simpl. rewrite ?app_nil_r. reflexivity.
Qed.

Lemma MediaDownloadToFile_composes_witness :
  exists left,
    snd (fst (MediaDownload Fake.env (Fake.client invalidMediaId) "id"
                (Some (bufferWriter [])) ([] ++ [EvCreate "out.jpg" true])))
    = Some left
    /\ MediaDownloadToFile Fake.env (Fake.client invalidMediaId) "id"
         "out.jpg" []
       = (fst (fst (MediaDownload Fake.env (Fake.client invalidMediaId) "id"
                      (Some (bufferWriter []))
                      ([] ++ [EvCreate "out.jpg" true]))),
          EvCreate "out.jpg" true
          :: snd (MediaDownload Fake.env (Fake.client invalidMediaId) "id"
                    (Some (bufferWriter []))
                    ([] ++ [EvCreate "out.jpg" true]))
          ++ [EvFileClose "out.jpg" (wr_sunk left)]).
Proof.
  destruct (MediaDownloadToFile_composes Fake.env (Fake.client invalidMediaId)
              "id" "out.jpg" [])
    as [_ Hcreated].
  apply (Hcreated (bufferWriter [])). reflexivity.
Defined.

(** A download to a file that takes its writes, answered with status 200
    and a body that is not an error document, ends as the body stream
    does, without error when the body was read to its end and with the
    read error when the stream broke off, and closes the file with every
    byte that the stream delivered after what the new file held. *)
Theorem download_to_file_stores_body env c mediaId filePath h file url resp :
  os_Create env filePath h = Ok file ->
  accepting file ->
  In (EvGet url (Ok resp))
    (snd (MediaDownloadToFile env c mediaId filePath h)) ->
  StatusCode resp = http_StatusOK ->
  isErrorDocument env resp = false ->
  fst (MediaDownloadToFile env c mediaId filePath h) = rd_err (Body resp)
  /\ last (snd (MediaDownloadToFile env c mediaId filePath h))
       (EvCreate filePath true)
     = EvFileClose filePath (wr_sunk file ++ Body_bytes resp).
Proof.
  intros Hcreate Hacc Hin Hok Hdoc.
  unfold MediaDownloadToFile in *. unfold orReturn, bind, ask, ret, emit in *.
  simpl in *. rewrite Hcreate in *. simpl in *.
  destruct (MediaDownload env c mediaId (Some file)
              (h ++ [EvCreate filePath true])) as [[err w] evs] eqn:Hrun.
  simpl in *.
  destruct Hin as [Hin | Hin]; [ discriminate | ].
  rewrite ?app_nil_r in Hin. apply in_app_or in Hin.
  destruct Hin as [Hin | Hin]; [ | in_trace; discriminate ].
  assert (Hevs : evs = snd (MediaDownload env c mediaId (Some file)
                              (h ++ [EvCreate filePath true])))
    by (now rewrite Hrun).
  rewrite Hevs in Hin.
  pose proof (MediaDownload_answered _ _ _ _ _ _ _ Hin Hok) as Hout.
  rewrite Hrun in Hout. simpl in Hout. unfold downloaded in Hout.
  rewrite Hdoc in Hout. injection Hout as -> ->.
  destruct (io_Copy_accepting file (Body resp) Hacc) as [Herr Hsunk].
  split; [ exact Herr | ].
  rewrite ?app_nil_r. rewrite Hsunk.
  exact (last_last (EvCreate filePath true :: evs)
           (EvFileClose filePath (wr_sunk file ++ Body_bytes resp))
           (EvCreate filePath true)).
Qed.

(** The bytes [BIN] stored whole, and the file that a broken stream leaves
    behind with the two bytes it delivered. *)
Lemma download_to_file_stores_body_witness :
  (fst (MediaDownloadToFile Fake.env (Fake.client binAnswer) "id" "out.bin" [])
   = None
   /\ last (snd (MediaDownloadToFile Fake.env (Fake.client binAnswer) "id"
                   "out.bin" []))
        (EvCreate "out.bin" true)
      = EvFileClose "out.bin" (list_byte_of_string "BIN"))
  /\ (fst (MediaDownloadToFile Fake.env (Fake.client brokenAnswer) "id"
             "out.bin" [])
      = Some UnexpectedEOF
      /\ last (snd (MediaDownloadToFile Fake.env (Fake.client brokenAnswer)
                      "id" "out.bin" []))
           (EvCreate "out.bin" true)
         = EvFileClose "out.bin" (list_byte_of_string "BI")).
Proof.
  split.
  - apply (@download_to_file_stores_body Fake.env (Fake.client binAnswer)
             "id" "out.bin" [] (bufferWriter [])
             (mediaDownloadURL Fake.env "TOKEN" "id") binAnswer).
    + reflexivity.
    + apply bufferWriter_accepting.
    + right. right. left. reflexivity.
    + reflexivity.
    + reflexivity.
  - apply (@download_to_file_stores_body Fake.env (Fake.client brokenAnswer)
             "id" "out.bin" [] (bufferWriter [])
             (mediaDownloadURL Fake.env "TOKEN" "id") brokenAnswer).
    + reflexivity.
    + apply bufferWriter_accepting.
    + right. right. left. reflexivity.
    + reflexivity.
    + reflexivity.
Defined.

(** A download to a file that does not reach the copy of a body leaves the
    file behind as it was created: when every answer with status 200 is an
    error document, the call returns an error and closes the file holding
    what it held when it was created. *)
Theorem failed_download_leaves_the_file env c mediaId filePath h file :
  os_Create env filePath h = Ok file ->
  (forall url resp,
     In (EvGet url (Ok resp))
       (snd (MediaDownloadToFile env c mediaId filePath h)) ->
     StatusCode resp = http_StatusOK ->
     isErrorDocument env resp = true) ->
  fst (MediaDownloadToFile env c mediaId filePath h) <> None
  /\ last (snd (MediaDownloadToFile env c mediaId filePath h))
       (EvCreate filePath true)
     = EvFileClose filePath (wr_sunk file).
Proof.
  intros Hcreate.
  unfold MediaDownloadToFile, MediaDownload, isErrorDocument, declaredType.
  unfold_go. simpl. rewrite Hcreate. simpl.
  repeat (break_match; simpl in *).
  all: intros Hdoc.
  all: try (split; [ discriminate | reflexivity ]).
  all: exfalso.
  all: match goal with
       | H : negb (StatusCode ?r =? _)%Z = false |- _ =>
           apply negb_false_iff, Z.eqb_eq in H;
           specialize (Hdoc _ r (or_intror (or_intror (or_introl eq_refl))) H)
       end.
  all: match goal with
       | H : negb _ && negb _ = true |- _ =>
           rewrite <- negb_orb in H; apply negb_true_iff in H; congruence
       end.
Qed.

Lemma failed_download_leaves_the_file_witness :
  fst (MediaDownloadToFile Fake.env (Fake.client invalidMediaId) "id"
         "out.jpg" [])
  <> None
  /\ last (snd (MediaDownloadToFile Fake.env (Fake.client invalidMediaId) "id"
                  "out.jpg" []))
       (EvCreate "out.jpg" true)
     = EvFileClose "out.jpg" (wr_sunk (bufferWriter [])).
Proof.
  apply (@failed_download_leaves_the_file Fake.env
           (Fake.client invalidMediaId) "id" "out.jpg" [] (bufferWriter [])).
  - reflexivity.
  - intros url resp Hin _.
    destruct Hin as [Hin | [Hin | [Hin | [Hin | [Hin | [Hin | []]]]]]];
      try discriminate.
    injection Hin as _ <-. reflexivity.
Defined.
